(* ===== verification/_CoqProject ===== *)
-Q . S2P
Prelude.v
Random.v
Color.v
Styled.v
Form.v
Preview.v
DataUrl.v
Main.v
Background.v
Async.v
Logging.v
Spec.v
Display.v
