(* ===== verification/Prelude.v ===== *)
(** * A verification development of make-thumbnail's editor page

    The program is one React component, [Main] in
    [src/pages/main/index.tsx]: a thumbnail preview whose three texts come
    from three inputs and whose background comes from four buttons.  Its
    parts and how they interact:
    - the form store (react-hook-form, lines 10-27): three fields written by
      the inputs' [onChange] handlers (lines 110-136) and read by [useWatch];
      [resetInput] (lines 32-34) would reset them;
    - the random generator: [randomColor] (lines 83-89) over [hexString]
      (line 28), and [Math.random] itself;
    - the background handlers: [onClickRandomGradient] (36-42),
      [onClickRandomColor] (44-48), [onClickRandomImage] (50-55, a [fetch])
      and [onChangeImage] (57-77, a [FileReader]); they do not go through
      React state but write the inline style of the element [#preview];
    - the preview (JSX lines 94-167, the styled [Preview] of lines
      190-200): the three texts or their placeholders, on the inline
      background or the class's [#000000];
    - the stylesheet: seventeen styled components (lines 170-317) whose
      classes, under the inline style, decide what the browser shows;
    - the event loop: user events on the JSX's elements, and the settling of
      the two kinds of asynchronous work, in any order.

    Files (in dependency order) and what they model:
    - [Prelude] (this file): JavaScript operations on strings and numbers,
      [Math.floor(Math.random() * n)] as [floor_mul] (with the rounding of
      the double product, [round_double]), the state monad [M] and
      its notation, the [for] loop [js_for], the hint databases.
    - [Random]: the interface [MathRandom]/[MathRandomOk] (a typeclass and
      its law: a draw is a numerator in [[0, 2^53)]), and [SeedRng], an
      implementation that replays a list of draws.  Every theorem about
      randomness is proved against the interface.
    - [Color]: [hexString], [randomColor] as a six-iteration [js_for] loop,
      its reference definition [color_of_draws] and the parser
      [parse_hex_color].
    - [Styled]: each styled component as a [Definition] holding its
      template literal verbatim; [parse_template], the reading of a
      template as declarations and nested rules, with its printer; the
      cascade [computed] (class, [&:hover]
      rule, inline style, the [background] shorthand's longhands).
    - [Form]: the store [FormState] (values, default values, dirty fields, a
      [gmap]/[gset] each) with react-hook-form's [setValue], [reset] and
      [useWatch], and [Main]'s [title]/[subtitle]/[category],
      [onChange_title]/[_subtitle]/[_category] and [resetInput].
    - [Preview]: the inline [Style] of [#preview] (the [background]
      shorthand resets [background-size]), the placeholders and [render].
    - [DataUrl]: [readAsDataURL] of the File API (base64 of RFC 4648), the
      platform function [onChangeImage] relies on, with a decoder
      [base64_decode] and [data_url_bytes].
    - [Main]: the component state [St] (form, style, [image], generator,
      pending tasks), one definition per handler and per callback, the
      executable [step] over [Event]s, [run] over a sequence and
      [reachable] (an inductive of the states reachable from mount); the
      theorems on single events and error paths.
    - [Background]: the spec's [BackgroundDescriptor] as [Descriptor], the
      style [paint] leaves for each, the invariant [style_wf], and the
      theorems on painting and on the ordering of completions.
    - [Async]: the completion of pending work ([settle_event]) and the
      event loop [drain] settling the oldest task until none is left.
    - [Logging]: the console output, [onload]'s [console.log(file)] and the
      effect on [[title]] ([title_effect]), as a trace beside [step].
    - [Spec]: the spec's abstract machine [AState]/[AStep] (three fields,
      one active descriptor, work in flight), the refinement relation [R]
      and the simulation of [step] by [AStep].
    - [Display]: the computed background longhands of [#preview]
      ([preview_computed], [shown]): the cascade of [Styled] applied to the
      class [Preview] and to the inline style of [Preview]/[Main].

    What the theorems show:
    - [Color]: the loop computes its reference definition; every color is
      [#] and six hex digits; parsing it back gives the drawn digits (round
      trip); each digit is uniform ([2^49] of the [2^53] draws each); every
      [#rrggbb] color can be drawn (surjectivity).
    - [Form]: an edit shows its value and leaves the other fields; the dirty
      flag follows react-hook-form's rule.
    - [Preview]: the text shown for any typed string (placeholder exactly
      when it is empty).
    - [Main]: the gradient's angle is in [[0, 360)]; what a rejected fetch,
      a failed read and a missing file do (fail-safe, with an unhandled
      rejection or a [TypeError]); the spec's Hello/World/Demo scenario;
      [resetInput] is never reached; an upload's [image] decodes back to
      the file's bytes (round trip of base64 and of the data URL); the
      angle is the exact floor of [r * 360 / 2^53] or, when the rounding of
      the double product carries it over an integer, one more, which
      happens at the last draw below each angle's range.
    - [Styled]: lemmas only: reading the printing of well-formed items gives
      them back; the cascade of the [background] shorthand.
    - [Background]: in every reachable state, by any interleaving of events
      and completions, the style paints at most one well-formed descriptor
      (invariant by induction on [reachable]); an upload paints with
      [cover], a fetch response of any status paints with [auto]; a stale
      fetch overwrites a newer color; two uploads complete out of order.
    - [Async]: [drain] terminates within as many completions as there are
      pending tasks, leaves no work in flight and is the run of their
      completions; [image] only holds [''] or a data URL.
    - [Logging]: along any run the effect prints the title exactly after
      each change, and one line is printed per loaded read.
    - [Spec]: each [step] is simulated by zero or one [AStep], and every
      reachable state refines a reachable abstract state whose rendering
      (texts, background) is what [render] shows.
    - [Display]: in every reachable state the computed background-image,
      -color, -size and -repeat of [#preview] are a function of the spec's
      active descriptor.

    Bounds and fuel.  A [Math.random()] draw is the exact rational [r / 2^53]
    with [0 <= r < 2^53] (the doubles [Math.random] returns are multiples
    of [2^-53]).  The product [x * n] is a double: [round_double] rounds
    the exact product [r * n] (over [2^53]) to 53 significant bits, ties to
    even, as IEEE 754 does, and [floor_mul] takes the floor of the rounded
    value.  For [n = 16] the product is exact; for [n = 360] it can round
    up to the next integer, so the floor is the exact one or one more
    ([floor_mul_exact_or_next]), and it stays below [n] ([floor_mul_range]).  No
    definition of the program needs fuel: [randomColor]'s loop has six
    iterations and is a structural [Fixpoint] on their count; [step]
    handles one event.  [Async.drain], the environment's event loop, takes
    fuel: one unit per completion, and the number of pending tasks is
    enough ([drain_terminates]).  The template reader is structural on the
    string and on its list of chunks.

    Not modelled: the layout the stylesheet produces (box sizes, flex
    distribution; no behaviour depends on it), and CSS values other than
    the ones the program writes (the [background] shorthand is read as a
    color when it is [#rrggbb], as an image layer otherwise, and a value the
    browser cannot parse is not dropped); React's development-mode double
    invocation of effects and its rendering machinery beyond [render] (the
    effect on [[title]] is run once per event, as if each event were
    rendered before the next, while React may batch the renders of several
    events); the network and the endpoint (a [fetch]
    settles with any [Response] or a rejection, chosen by the event); the
    decoding of images; the imports and the export (lines 1-8, 319). *)

(** * Prelude: JavaScript values, the random-draw arithmetic and the state monad

    Shared by every component of the development:
    - [js_truthy], [js_index], [js_concat], [js_number]: the JavaScript
      operations the component [Main] of [src/pages/main/index.tsx] applies to
      strings and numbers (truthiness of [string | undefined], indexing a string
      with [s[i]], [+=] on strings, a number in a template literal);
    - [RAND_SCALE], [round_double] and [floor_mul]:
      [Math.floor(Math.random() * n)], with a draw of [Math.random()] written
      as a numerator [r] over [2^53] and the double product rounded to 53
      bits;
    - [M]: the state monad [St -> A * St] used to thread the random generator,
      with its notation in [js_scope];
    - [js_for]: a counted [for] loop; [all_chars], a predicate on every
      character of a string;
    - the hint database [thumb] and the tactic [thumb_simpl]. *)

From stdpp Require Import base list strings.
From Stdlib Require Import ZArith Lia DecimalString DecimalNat.

Declare Scope js_scope.
Delimit Scope js_scope with js.
Open Scope string_scope.

Create HintDb thumb.
Create Rewrite HintDb thumb_rw.

(** ** JavaScript strings *)

(** Truthiness of a value of type [string | undefined]: [undefined] and the
    empty string are falsy, every other string is truthy. *)
Definition js_truthy (v : option string) : bool :=
  match v with
  | Some s => negb (String.eqb s "")
  | None => false
  end.

(** [s[i]] for an integer [i]: the one-character string at [i], or
    [undefined] out of range. *)
Definition js_index (s : string) (i : Z) : option string :=
  if (0 <=? i)%Z then
    match String.get (Z.to_nat i) s with
    | Some c => Some (String c EmptyString)
    | None => None
    end
  else None.

(** [acc + v] where [v : string | undefined]: [undefined] is converted to the
    string ["undefined"]. *)
Definition js_concat (acc : string) (v : option string) : string :=
  match v with
  | Some s => acc ++ s
  | None => acc ++ "undefined"
  end.

(** A non-negative integer number converted to a string (as in a template
    literal): its decimal digits. *)
Definition js_nat_string (n : nat) : string :=
  NilEmpty.string_of_uint (Nat.to_uint n).

Definition js_number (z : Z) : string :=
  if (z <? 0)%Z then "-" ++ js_nat_string (Z.to_nat (- z))
  else js_nat_string (Z.to_nat z).

(** Position of the first occurrence of a character in a string. *)
Fixpoint index_of (c : Ascii.ascii) (s : string) : option nat :=
  match s with
  | EmptyString => None
  | String c' s' =>
      if Ascii.eqb c c' then Some 0 else option_map S (index_of c s')
  end.

(** Every character of [s] satisfies [f]. *)
Fixpoint all_chars (f : Ascii.ascii -> bool) (s : string) : bool :=
  match s with
  | EmptyString => true
  | String c s' => f c && all_chars f s'
  end.

(** ** [Math.floor(Math.random() * n)] *)

(** [Math.random()] returns a double in [0, 1); a draw is modelled as the
    numerator [r] of [r / 2^53] with [0 <= r < 2^53]. *)
Definition RAND_SCALE : Z := 2 ^ 53.

Definition rand_ok (r : Z) : Prop := (0 <= r < RAND_SCALE)%Z.

#[export] Instance rand_ok_dec r : Decision (rand_ok r).
Proof. unfold rand_ok. apply _. Defined.

(** [m] rounded to a multiple of [2^k], to the nearest, ties to the even
    multiple (IEEE 754 [roundTiesToEven]). *)
Definition round_ne (m k : Z) : Z :=
  let p := (2 ^ k)%Z in
  let q := (m / p)%Z in
  let rem := (m mod p)%Z in
  if (2 * rem <? p)%Z then (q * p)%Z
  else if (p <? 2 * rem)%Z then ((q + 1) * p)%Z
  else if Z.even q then (q * p)%Z else ((q + 1) * p)%Z.

(** The double nearest to [m * 2^-53], for an integer [m >= 0], as a
    multiple of [2^-53]: [m] rounded to 53 significant bits (the double
    [m * 2^-53] is normal, and its last bit weighs [2^(log2 m - 52)]). *)
Definition round_double (m : Z) : Z := round_ne m (Z.max 0 (Z.log2 m - 52)).

(** [Math.floor(Math.random() * n)] for the draw [r / 2^53] and an integer
    [n < 2^53]: the product of the two doubles is rounded to a double, then
    floored. *)
Definition floor_mul (r n : Z) : Z := (round_double (r * n) / RAND_SCALE)%Z.

(** ** The state monad *)

Definition M (St A : Type) : Type := St -> A * St.

Definition ret {St A} (a : A) : M St A := fun s => (a, s).

Definition bind {St A B} (c : M St A) (k : A -> M St B) : M St B :=
  fun s => let '(a, s') := c s in k a s'.

Notation "x <- c ;; k" := (bind c (fun x => k))
  (at level 100, c at next level, right associativity) : js_scope.

Open Scope js_scope.

(** [for (i = i0; i < n; i++) acc = body(i, acc)], as [n - i0] iterations. *)
Fixpoint js_for_iter {St A} (k i : nat) (body : nat -> A -> M St A) (acc : A)
    : M St A :=
  match k with
  | O => ret acc
  | S k' => acc' <- body i acc ;; js_for_iter k' (S i) body acc'
  end.

Definition js_for {St A} (i0 n : nat) (body : nat -> A -> M St A) (acc : A) : M St A :=
  js_for_iter (n - i0) i0 body acc.

(** [lia] after turning [/] and [mod] by constants into equations. *)
Ltac zlia := Z.div_mod_to_equations; lia.

(** ** Generic lemmas *)

Lemma js_truthy_Some s : js_truthy (Some s) = true <-> s <> "".
Proof.
  unfold js_truthy. destruct (String.eqb_spec s ""); simpl; split; congruence.
Qed.

Lemma js_truthy_None : js_truthy None = false.
Proof. reflexivity. Qed.

Lemma round_ne_cases m k :
  (0 <= k)%Z ->
  exists q rem, m = (q * 2 ^ k + rem)%Z /\ (0 <= rem < 2 ^ k)%Z /\
    (round_ne m k = (q * 2 ^ k)%Z /\ (2 * rem <= 2 ^ k)%Z \/
     round_ne m k = ((q + 1) * 2 ^ k)%Z /\ (2 ^ k <= 2 * rem)%Z).
Proof.
  intros Hk. pose proof (Z.pow_pos_nonneg 2 k ltac:(lia) Hk) as Hp.
  exists (m / 2 ^ k)%Z, (m mod 2 ^ k)%Z. unfold round_ne.
  pose proof (Z.div_mod m (2 ^ k) ltac:(lia)). pose proof (Z.mod_pos_bound m (2 ^ k) Hp).
  split; [lia|]. split; [lia|].
  destruct (Z.ltb_spec (2 * (m mod 2 ^ k)) (2 ^ k)); [left; lia|].
  destruct (Z.ltb_spec (2 ^ k) (2 * (m mod 2 ^ k))); [right; lia|].
  destruct (Z.even (m / 2 ^ k)); [left|right]; lia.
Qed.

(** Rounding moves [m] by at most half a unit [2^k]. *)
Lemma round_ne_near m k :
  (0 <= k)%Z -> (2 * m - 2 ^ k <= 2 * round_ne m k <= 2 * m + 2 ^ k)%Z.
Proof. intros Hk. destruct (round_ne_cases m k Hk) as (q & rem & -> & ? & [[-> ?]|[-> ?]]); lia. Qed.

(** Rounding never goes below a multiple of [2^k] that is below [m]. *)
Lemma round_ne_ge j m k :
  (0 <= k)%Z -> (j * 2 ^ k <= m)%Z -> (j * 2 ^ k <= round_ne m k)%Z.
Proof.
  intros Hk Hj. pose proof (Z.pow_pos_nonneg 2 k ltac:(lia) Hk).
  destruct (round_ne_cases m k Hk) as (q & rem & -> & ? & Hr). set (p := (2 ^ k)%Z) in *.
  assert (Hjq : (j <= q)%Z).
  { destruct (Z.le_gt_cases j q) as [|Hgt]; [done|].
    assert ((q + 1) * p <= j * p)%Z by (apply Z.mul_le_mono_nonneg_r; lia). lia. }
  assert (j * p <= q * p)%Z by (apply Z.mul_le_mono_nonneg_r; lia).
  destruct Hr as [[-> _]|[-> _]]; lia.
Qed.

Lemma round_ne_exact m k : (0 <= k)%Z -> (m mod 2 ^ k = 0)%Z -> round_ne m k = m.
Proof.
  intros Hk Hm. pose proof (Z.pow_pos_nonneg 2 k ltac:(lia) Hk).
  unfold round_ne. rewrite Hm. change (2 * 0)%Z with 0%Z.
  rewrite (proj2 (Z.ltb_lt 0 (2 ^ k))) by lia.
  rewrite Z.mul_comm. symmetry. apply Z.div_exact; lia.
Qed.

(** The unit of the rounding is at most [2^-52] of [m]. *)
Lemma round_double_unit m :
  (0 <= m)%Z -> let k := Z.max 0 (Z.log2 m - 52) in
  (0 <= k)%Z /\ (k = 0 \/ 2 ^ k * 2 ^ 52 <= m)%Z.
Proof.
  intros Hm k. split; [lia|]. destruct (Z.leb_spec (Z.log2 m - 52) 0); [left; lia|right].
  assert (Hpos : (0 < m)%Z) by (destruct (Z.eq_dec m 0) as [->|]; [simpl in *; lia|lia]).
  destruct (Z.log2_spec m Hpos) as [Hlo _]. subst k. rewrite Z.max_r by lia.
  rewrite <- Z.pow_add_r by lia. by replace (Z.log2 m - 52 + 52)%Z with (Z.log2 m) by lia.
Qed.

(** The double product is within [m * 2^-53] of [m]. *)
Lemma round_double_close m :
  (0 <= m)%Z -> (RAND_SCALE * m - m <= RAND_SCALE * round_double m <= RAND_SCALE * m + m)%Z.
Proof.
  intros Hm. unfold round_double, RAND_SCALE.
  destruct (round_double_unit m Hm) as [Hk [Hk0|Hu]];
    pose proof (round_ne_near m _ Hk) as Hn.
  - rewrite Hk0 in Hn |- *. simpl in Hn. assert (round_ne m 0 = m) as -> by lia. lia.
  - change (2 ^ 53)%Z with (2 * 2 ^ 52)%Z. nia.
Qed.

(** Below [2^106] the unit divides [2^53]: rounding keeps every multiple of
    [2^53] below [m]. *)
Lemma round_double_ge j m :
  (0 <= m < 2 ^ 106)%Z -> (j * RAND_SCALE <= m)%Z -> (j * RAND_SCALE <= round_double m)%Z.
Proof.
  intros Hm Hj. unfold round_double, RAND_SCALE in *.
  set (k := Z.max 0 (Z.log2 m - 52)).
  assert (Hk : (0 <= k <= 53)%Z).
  { destruct (Z.eq_dec m 0) as [->|Hm0]; [simpl in k; lia|].
    assert (Z.log2 m < 106)%Z by (apply Z.log2_lt_pow2; lia). lia. }
  replace (j * 2 ^ 53)%Z with (j * 2 ^ (53 - k) * 2 ^ k)%Z in *
    by (rewrite <- Z.mul_assoc, <- Z.pow_add_r by lia; f_equal; f_equal; lia).
  apply round_ne_ge; lia.
Qed.

Lemma floor_mul_range r n :
  rand_ok r -> (0 < n)%Z -> (0 <= floor_mul r n < n)%Z.
Proof.
  unfold rand_ok, floor_mul. intros [H0 H1] Hn.
  pose proof (round_double_close (r * n) ltac:(nia)) as Hc. unfold RAND_SCALE in *.
  split; [apply Z.div_pos; nia|]. apply Z.div_lt_upper_bound; nia.
Qed.

(** The rounding moves the floor by at most one, up: [Math.floor] of the
    double product is the exact floor or the next integer. *)
Lemma floor_mul_exact_or_next r n :
  rand_ok r -> (0 < n < 2 ^ 53)%Z ->
  floor_mul r n = (r * n / RAND_SCALE)%Z \/ floor_mul r n = (r * n / RAND_SCALE + 1)%Z.
Proof.
  unfold rand_ok, floor_mul. intros [H0 H1] Hn. unfold RAND_SCALE in *.
  assert (Hm : (0 <= r * n < 2 ^ 106)%Z) by nia.
  set (m := (r * n)%Z) in *. set (e := (m / 2 ^ 53)%Z).
  pose proof (round_double_close m ltac:(lia)) as Hc. unfold RAND_SCALE in Hc.
  assert (He : (e * 2 ^ 53 <= m < (e + 1) * 2 ^ 53)%Z) by (subst e; zlia).
  assert (Hge := round_double_ge e m Hm ltac:(unfold RAND_SCALE; lia)). unfold RAND_SCALE in Hge.
  set (x := round_double m) in *. zlia.
Qed.

(** The rounding error is below [n] units of [2^-53]: the floor of the
    double product, scaled back, is below [r * n + n]. *)
Lemma floor_mul_bound r n :
  rand_ok r -> (0 < n < 2 ^ 53)%Z -> (floor_mul r n * RAND_SCALE < r * n + n)%Z.
Proof.
  unfold rand_ok, floor_mul. intros [H0 H1] Hn. unfold RAND_SCALE in *.
  assert (Hm : (0 <= r * n < n * 2 ^ 53)%Z) by nia.
  set (m := (r * n)%Z) in *.
  pose proof (round_double_close m ltac:(lia)) as Hc. unfold RAND_SCALE in Hc.
  set (x := round_double m) in *.
  pose proof (Z.mul_div_le x (2 ^ 53) ltac:(lia)). nia.
Qed.

(** A product by [2^j], [j <= 4], is exact: [Math.floor(r * 16)] is the
    exact floor. *)
Lemma floor_mul_16 r : rand_ok r -> floor_mul r 16 = (r * 16 / RAND_SCALE)%Z.
Proof.
  unfold rand_ok, floor_mul, round_double, RAND_SCALE. intros [H0 H1]. f_equal.
  set (k := Z.max 0 (Z.log2 (r * 16) - 52)).
  assert (Hk : (0 <= k <= 4)%Z).
  { destruct (Z.eq_dec r 0) as [->|Hr0]; [simpl in k; lia|].
    assert (Z.log2 (r * 16) < 57)%Z by (apply Z.log2_lt_pow2; lia). lia. }
  apply round_ne_exact; [lia|].
  assert (k = 0 \/ k = 1 \/ k = 2 \/ k = 3 \/ k = 4)%Z as Hc by lia.
  destruct Hc as [->|[->|[->|[->| ->]]]]; simpl; zlia.
Qed.

(** A draw selects the digit [d] of [Math.floor(r * 16)] exactly on the
    interval of numerators [[d * 2^49, (d + 1) * 2^49)]. *)
Lemma floor_mul_16_spec r d :
  rand_ok r -> floor_mul r 16 = d <-> (d * 2 ^ 49 <= r < (d + 1) * 2 ^ 49)%Z.
Proof. intros Hr. rewrite floor_mul_16 by done. unfold RAND_SCALE. split; [intros <-|intros]; zlia. Qed.

Lemma js_index_in s i c :
  String.get (Z.to_nat i) s = Some c -> (0 <= i)%Z ->
  js_index s i = Some (String c EmptyString).
Proof. unfold js_index. intros -> Hi. by destruct (Z.leb_spec 0 i); [|lia]. Qed.

Lemma string_get_None_iff (s : string) n :
  String.get n s = None <-> String.length s <= n.
Proof.
  revert n. induction s as [|a s IH]; intros [|n]; simpl;
    [split; [lia|done] .. | split; [done|lia] |].
  rewrite IH. lia.
Qed.

Lemma js_index_None_iff s i :
  js_index s i = None <-> (i < 0)%Z \/ String.length s <= Z.to_nat i.
Proof.
  unfold js_index. destruct (Z.leb_spec 0 i).
  - rewrite <- string_get_None_iff.
    destruct (String.get _ s); split; try done; [intros [?|?]; [lia|done] | by right].
  - split; [intros _; left; lia|done].
Qed.

Lemma string_length_app (s1 s2 : string) :
  String.length (s1 ++ s2) = String.length s1 + String.length s2.
Proof. induction s1; simpl; auto. Qed.

Lemma string_app_assoc (s1 s2 s3 : string) :
  (s1 ++ s2) ++ s3 = s1 ++ (s2 ++ s3).
Proof. induction s1 as [|a s1 IH]; [done|exact (f_equal (String a) IH)]. Qed.

Lemma string_app_nil_r (s : string) : s ++ "" = s.
Proof. induction s as [|a s IH]; [done|exact (f_equal (String a) IH)]. Qed.

Lemma js_nat_string_inj n m : js_nat_string n = js_nat_string m -> n = m.
Proof.
  unfold js_nat_string. intros H.
  apply (f_equal NilEmpty.uint_of_string) in H. rewrite !NilEmpty.usu in H.
  apply Unsigned.to_uint_inj. congruence.
Qed.

Lemma index_of_get c s n :
  index_of c s = Some n -> String.get n s = Some c /\ n < String.length s.
Proof.
  revert n. induction s as [|c' s IH]; intros n; simpl; [done|].
  destruct (Ascii.eqb_spec c c') as [->|_]; [intros [= <-]; split; [done|lia]|].
  destruct (index_of c s) as [m|]; simpl; [|done]. intros [= <-].
  destruct (IH m eq_refl). split; [done|lia].
Qed.

Lemma all_chars_app f s t : all_chars f (s ++ t) = all_chars f s && all_chars f t.
Proof. induction s as [|c s IH]; simpl; [done|]. by rewrite IH, andb_assoc. Qed.

Lemma forallb_Forall_true {A} (f : A -> bool) l :
  forallb f l = true -> Forall (fun x => f x = true) l.
Proof. induction l; simpl; [constructor|]. intros [? ?]%andb_prop. constructor; auto. Qed.

Lemma js_for_iter_S {St A} k i (body : nat -> A -> M St A) acc s :
  js_for_iter (S k) i body acc s =
    let '(a, s') := body i acc s in js_for_iter k (S i) body a s'.
Proof. reflexivity. Qed.

Lemma bind_ret_l {St A B} (a : A) (k : A -> M St B) s : bind (ret a) k s = k a s.
Proof. reflexivity. Qed.

#[export] Hint Resolve floor_mul_range : thumb.
#[export] Hint Rewrite @bind_ret_l string_length_app : thumb_rw.


Ltac thumb_simpl :=
  repeat (unfold bind, ret in *; simpl in *;
          autorewrite with thumb_rw in *).
