(* ===== verification/Random.v ===== *)
(** * Random: the interface the component expects of [Math.random]

    [Main] calls [Math.random()] in [randomColor] (once per hex digit) and in
    [onClickRandomGradient] (once for the angle).  The class [MathRandom] is
    the operation, as a step of the state monad [M G Z] of the generator's
    state [G]; [MathRandomOk] is its contract, the one the code relies on:
    every draw is a numerator in [[0, 2^53)], i.e. a number in [[0, 1)].
    The components are proved against this interface.  [SeedRng] is an
    implementation that replays a list of numerators (taken modulo [2^53])
    and is used to run the model on concrete draws. *)

From stdpp Require Import base list strings.
From Stdlib Require Import ZArith Lia.
From S2P Require Import Prelude.

Class MathRandom (G : Type) := math_random : M G Z.

Class MathRandomOk (G : Type) `{MathRandom G} :=
  math_random_ok : forall g, rand_ok (fst (math_random g)).

(** [n] consecutive draws. *)
Fixpoint draws {G} `{MathRandom G} (n : nat) : M G (list Z) :=
  match n with
  | O => ret []
  | S n' => r <- math_random ;; rs <- draws n' ;; ret (r :: rs)
  end.

Section Draws.
Context {G : Type} `{MathRandomOk G}.

Lemma draws_S n g :
  draws (S n) g =
    let '(r, g1) := math_random g in let '(rs, g2) := draws n g1 in (r :: rs, g2).
Proof. reflexivity. Qed.

Lemma draws_length n g : length (fst (draws n g)) = n.
Proof.
  revert g. induction n as [|n IH]; intros g; [done|].
  simpl. unfold bind. destruct (math_random g) as [r g1].
  destruct (draws n g1) as [rs g2] eqn:E. simpl.
  specialize (IH g1). rewrite E in IH. simpl in IH. by rewrite IH.
Qed.

Lemma draws_ok n g : Forall rand_ok (fst (draws n g)).
Proof.
  revert g. induction n as [|n IH]; intros g; simpl; [constructor|].
  unfold bind. pose proof (math_random_ok g) as Hr.
  destruct (math_random g) as [r g1]. specialize (IH g1).
  destruct (draws n g1) as [rs g2]. by constructor.
Qed.
End Draws.

(** ** A replayed sequence of draws *)

Record SeedRng := mkSeedRng { seed : list Z; cursor : nat }.

#[export] Instance SeedRng_random : MathRandom SeedRng :=
  fun g => ((nth (cursor g) (seed g) 0 mod RAND_SCALE)%Z,
            mkSeedRng (seed g) (S (cursor g))).

#[export] Instance SeedRng_random_ok : MathRandomOk SeedRng.
Proof.
  intros g. unfold rand_ok, math_random, SeedRng_random, RAND_SCALE. simpl.
  apply Z.mod_pos_bound. lia.
Qed.

Definition seed_rng (rs : list Z) : SeedRng := mkSeedRng rs 0.

(** The generator replays its seed, draw after draw. *)
Lemma draws_seed pre rs :
  fst (draws (length rs) (mkSeedRng (pre ++ rs) (length pre))) =
    map (fun r => (r mod RAND_SCALE)%Z) rs.
Proof.
  revert pre. induction rs as [|r rs IH]; intros pre; [done|].
  cbn [length]. rewrite draws_S. unfold math_random, SeedRng_random. cbn [seed cursor].
  rewrite nth_middle. specialize (IH (pre ++ [r])%list).
  rewrite <- app_assoc, length_app in IH. simpl in IH. rewrite Nat.add_1_r in IH.
  destruct (draws (length rs) _) as [rs' g2]. simpl in *. by rewrite IH.
Qed.
