(* ===== verification/Color.v ===== *)
(** * Color: [randomColor] of [src/pages/main/index.tsx]

    [hexString] (line 28) and [randomColor] (lines 83-89): a loop of six
    iterations that appends [hexString[Math.floor(Math.random() *
    hexString.length)]] to ["#"].  The loop is [js_for 0 6] over
    [randomColor_body]; [color_of_draws] is the reference definition (the
    color as a function of the six draws) and [randomColor_spec] proves that
    the loop computes it.  The theorems show the format the spec promises
    ([#] and six hex digits), the round trip from the color back to the drawn
    digits, and the uniformity of each digit. *)

From stdpp Require Import base list strings.
From Stdlib Require Import ZArith Lia Ascii.
From S2P Require Import Prelude Random.

Definition hexString : string := "0123456789abcdef".

(** [hexString[Math.floor(r * hexString.length)]] as a string (["undefined"]
    when the index is out of range, as [+=] would append it). *)
Definition hex_char (r : Z) : string :=
  js_concat "" (js_index hexString (floor_mul r (Z.of_nat (String.length hexString)))).

Section RandomColor.
Context {G : Type} `{MathRandom G}.

(** One iteration: [hexCode += hexString[Math.floor(Math.random() * hexString.length)]]. *)
Definition randomColor_body (i : nat) (hexCode : string) : M G string :=
  r <- math_random ;;
  ret (js_concat hexCode
         (js_index hexString (floor_mul r (Z.of_nat (String.length hexString))))).

(** [let hexCode = '#'; for (var i = 0; i < 6; i++) ...; return hexCode;] *)
Definition randomColor : M G string := js_for 0 6 randomColor_body "#".
End RandomColor.

(** ** Reference definition and parser *)

Fixpoint hex_digits_of (rs : list Z) : string :=
  match rs with
  | [] => ""
  | r :: rs' => hex_char r ++ hex_digits_of rs'
  end.

Definition color_of_draws (rs : list Z) : string := "#" ++ hex_digits_of rs.

Definition hex_value (c : ascii) : option Z :=
  option_map Z.of_nat (index_of c hexString).

Fixpoint parse_hex_digits (s : string) : option (list Z) :=
  match s with
  | EmptyString => Some []
  | String c s' =>
      match hex_value c, parse_hex_digits s' with
      | Some d, Some ds => Some (d :: ds)
      | _, _ => None
      end
  end.

(** A CSS color [#rrggbb]: ["#"] followed by exactly six characters of
    [hexString]; the digits' values. *)
Definition parse_hex_color (s : string) : option (list Z) :=
  match s with
  | String c rest =>
      if Ascii.eqb c "#"%char then
        match parse_hex_digits rest with
        | Some ds => if Nat.eqb (length ds) 6 then Some ds else None
        | None => None
        end
      else None
  | EmptyString => None
  end.

Definition is_hex_color (s : string) : bool := bool_decide (is_Some (parse_hex_color s)).

(** ** Lemmas *)

Lemma js_concat_app acc v : js_concat acc v = acc ++ js_concat "" v.
Proof. by destruct v. Qed.

Lemma hexString_digit n :
  n < 16 -> exists c, String.get n hexString = Some c /\ hex_value c = Some (Z.of_nat n).
Proof.
  intros Hn. do 16 (destruct n as [|n]; [eexists; split; reflexivity|]). lia.
Qed.

Lemma hex_char_digit r :
  rand_ok r -> exists c, hex_char r = String c EmptyString /\
                         hex_value c = Some (floor_mul r 16).
Proof.
  intros Hr. pose proof (floor_mul_range r 16 Hr ltac:(lia)) as Hd.
  destruct (hexString_digit (Z.to_nat (floor_mul r 16)) ltac:(lia)) as (c & Hc & Hv).
  exists c. unfold hex_char. change (Z.of_nat (String.length hexString)) with 16%Z.
  rewrite (js_index_in _ _ c Hc) by lia. split; [done|].
  rewrite Hv. f_equal. lia.
Qed.

Lemma parse_hex_digits_cons c s :
  parse_hex_digits (String c EmptyString ++ s) =
    match hex_value c, parse_hex_digits s with
    | Some d, Some ds => Some (d :: ds)
    | _, _ => None
    end.
Proof. reflexivity. Qed.

Lemma parse_hex_digits_of rs :
  Forall rand_ok rs ->
  parse_hex_digits (hex_digits_of rs) = Some (map (fun r => floor_mul r 16) rs).
Proof.
  induction 1 as [|r rs Hr _ IH]; [done|].
  destruct (hex_char_digit r Hr) as (c & Hc & Hv).
  cbn [hex_digits_of]. rewrite Hc, parse_hex_digits_cons. by rewrite Hv, IH.
Qed.

Lemma parse_color_of_draws rs :
  Forall rand_ok rs -> length rs = 6 ->
  parse_hex_color (color_of_draws rs) = Some (map (fun r => floor_mul r 16) rs).
Proof.
  intros Hok Hlen. change (color_of_draws rs) with (String "#"%char (hex_digits_of rs)).
  unfold parse_hex_color. rewrite Ascii.eqb_refl, parse_hex_digits_of by done.
  by rewrite length_map, Hlen.
Qed.

#[export] Hint Resolve draws_ok draws_length : thumb.

Section RandomColorProofs.
Context {G : Type} `{MathRandomOk G}.

Lemma randomColor_loop k i acc g :
  js_for_iter k i randomColor_body acc g =
    let '(rs, g') := draws k g in (acc ++ hex_digits_of rs, g').
Proof.
  revert i acc g. induction k as [|k IH]; intros i acc g.
  - simpl. by rewrite string_app_nil_r.
  - rewrite js_for_iter_S, draws_S. unfold randomColor_body, bind, ret.
    destruct (math_random g) as [r g1]. rewrite IH.
    destruct (draws k g1) as [rs g2].
    by rewrite js_concat_app, string_app_assoc.
Qed.

Lemma randomColor_eq g :
  randomColor g = let '(rs, g') := draws 6 g in (color_of_draws rs, g').
Proof. apply randomColor_loop. Qed.

Lemma randomColor_parse g :
  parse_hex_color (fst (randomColor g)) =
    Some (map (fun r => floor_mul r 16) (fst (draws 6 g))).
Proof.
  rewrite randomColor_eq. pose proof (draws_ok 6 g) as Hok.
  pose proof (draws_length 6 g) as Hlen.
  destruct (draws 6 g) as [rs g']. simpl in *. by apply parse_color_of_draws.
Qed.

Lemma randomColor_hex g : is_hex_color (fst (randomColor g)) = true.
Proof. unfold is_hex_color. rewrite randomColor_parse. by apply bool_decide_eq_true. Qed.
End RandomColorProofs.

#[export] Hint Resolve randomColor_hex : thumb.

(** The draw [d * 2^49] selects the digit of value [d]. *)
Lemma hex_char_value c d :
  hex_value c = Some d -> hex_char ((d * 2 ^ 49) mod RAND_SCALE) = String c EmptyString.
Proof.
  unfold hex_value. destruct (index_of c hexString) as [n|] eqn:E; [|done]. simpl.
  intros [= <-]. apply index_of_get in E as [Hget Hn]. simpl in Hn.
  unfold hex_char. change (Z.of_nat (String.length hexString)) with 16%Z.
  assert (Hf : floor_mul ((Z.of_nat n * 2 ^ 49) mod RAND_SCALE) 16 = Z.of_nat n).
  { rewrite floor_mul_16 by (unfold rand_ok; apply Z.mod_pos_bound; unfold RAND_SCALE; lia).
    unfold RAND_SCALE. rewrite Z.mod_small by lia. zlia. }
  rewrite Hf, (js_index_in _ _ c) by (rewrite ?Nat2Z.id; done || lia). done.
Qed.

(** Parsing, then drawing the digits read, prints the same digits. *)
Lemma hex_digits_of_parse s ds :
  parse_hex_digits s = Some ds ->
  hex_digits_of (map (fun r => (r mod RAND_SCALE)%Z) (map (fun d => d * 2 ^ 49)%Z ds)) = s.
Proof.
  revert ds. induction s as [|c s IH]; intros ds; simpl; [by intros [= <-]|].
  destruct (hex_value c) as [d|] eqn:Hc, (parse_hex_digits s) as [ds'|]; [|done..].
  intros [= <-]. cbn [map hex_digits_of]. rewrite (hex_char_value c d Hc), IH by done. done.
Qed.

(** Every [#rrggbb] color is drawn from some seed: six draws [d * 2^49]. *)
Lemma randomColor_seed c :
  is_hex_color c = true -> exists rs, fst (randomColor (seed_rng rs)) = c.
Proof.
  unfold is_hex_color. rewrite bool_decide_eq_true. intros [ds Hds].
  destruct c as [|h rest]; [done|]. simpl in Hds.
  destruct (Ascii.eqb_spec h "#"); [subst h|done].
  destruct (parse_hex_digits rest) as [ds'|] eqn:Hp; [|done].
  destruct (Nat.eqb_spec (length ds') 6) as [Hlen|]; [|done]. simplify_eq.
  exists (map (fun d => d * 2 ^ 49)%Z ds). rewrite randomColor_eq.
  pose proof (draws_seed [] (map (fun d => d * 2 ^ 49)%Z ds)) as Hd.
  rewrite length_map, Hlen in Hd.
  destruct (draws 6 (seed_rng _)) as [rs' g'] eqn:E. unfold seed_rng in E.
  cbn [app length] in Hd. rewrite E in Hd. simpl in *. subst rs'.
  unfold color_of_draws. by rewrite (hex_digits_of_parse rest).
Qed.

(** ** Theorems *)

Section RandomColorTheorems.
Context {G : Type} `{MathRandomOk G}.

(** C15: [randomColor] (the six-iteration loop) computes the reference
    definition [color_of_draws] of the six numbers it draws, and consumes
    exactly six draws. *)
Theorem randomColor_spec (g : G) :
  randomColor g = let '(rs, g') := draws 6 g in (color_of_draws rs, g').
Proof. apply randomColor_loop. Qed.

(** C13: round trip: parsing the color [randomColor] returns as [#rrggbb]
    gives back, digit by digit, the values [Math.floor(r * 16)] of the six
    draws [r], and the generator is left just after these six draws. *)
Theorem randomColor_roundtrip (g : G) :
  parse_hex_color (fst (randomColor g)) =
    Some (map (fun r => floor_mul r 16) (fst (draws 6 g))) /\
  snd (randomColor g) = snd (draws 6 g).
Proof.
  split; [apply randomColor_parse|]. rewrite randomColor_eq. by destruct (draws 6 g).
Qed.

(** C2: format: the string [randomColor] returns is always ["#"] followed by
    exactly six characters of [hexString] (never ["undefined"]). *)
Theorem randomColor_format (g : G) : is_hex_color (fst (randomColor g)) = true.
Proof. apply randomColor_hex. Qed.

(** C14: uniformity: the [j]-th digit of the color is [d] exactly when the
    [j]-th draw lies in [[d * 2^49, (d + 1) * 2^49)]: each of the 16 digits
    is selected by the same number [2^49] of the [2^53] possible draws. *)
Theorem randomColor_digit_uniform (g : G) j d :
  (parse_hex_color (fst (randomColor g)) ≫= lookup j) = Some d <->
    exists r, fst (draws 6 g) !! j = Some r /\ (d * 2 ^ 49 <= r < (d + 1) * 2 ^ 49)%Z.
Proof.
  rewrite randomColor_parse. pose proof (draws_ok 6 g) as Hok.
  generalize dependent (fst (draws 6 g)). intros rs Hok.
  simpl. rewrite list_lookup_fmap. destruct (rs !! j) as [r|] eqn:Hj; simpl.
  - assert (Hr : rand_ok r) by (eapply Forall_lookup_1; eauto). split.
    + intros [= Hd]. apply floor_mul_16_spec in Hd; [|done]. eauto.
    + intros (r' & [= <-] & Hd). f_equal. by apply floor_mul_16_spec.
  - split; [done|]. intros (? & ? & _). done.
Qed.
End RandomColorTheorems.

(** C22: surjectivity: every [#rrggbb] color (six digits of [hexString]) is
    a possible result of [randomColor]: some sequence of draws of
    [Math.random] produces it. *)
Theorem randomColor_surjective c :
  is_hex_color c = true -> exists rs, fst (randomColor (seed_rng rs)) = c.
Proof. apply randomColor_seed. Qed.

(** ** Witnesses: the spec's scenario [#3a7fd1] *)

(** Six draws [d * 2^49] select the digits [3 a 7 f d 1]. *)
Lemma randomColor_format_witness :
  fst (randomColor (seed_rng (map (fun d => d * 2 ^ 49)%Z [3; 10; 7; 15; 13; 1]%Z)))
    = "#3a7fd1" /\
  is_hex_color (fst (randomColor (seed_rng (map (fun d => d * 2 ^ 49)%Z [3; 10; 7; 15; 13; 1]%Z))))
    = true.
Proof. split; [vm_compute; reflexivity | apply randomColor_format]. Defined.

Lemma randomColor_roundtrip_witness :
  parse_hex_color (fst (randomColor (seed_rng (map (fun d => d * 2 ^ 49)%Z [3; 10; 7; 15; 13; 1]%Z))))
    = Some [3; 10; 7; 15; 13; 1]%Z /\
  snd (randomColor (seed_rng [0; 0; 0; 0; 0; 0]%Z)) = snd (draws 6 (seed_rng [0; 0; 0; 0; 0; 0]%Z)).
Proof. split; [rewrite (proj1 (randomColor_roundtrip _)) | apply randomColor_roundtrip]; vm_compute; reflexivity. Defined.

Lemma randomColor_spec_witness :
  randomColor (seed_rng [1; 2; 3; 4; 5; 6; 7]%Z) =
    (color_of_draws [1; 2; 3; 4; 5; 6]%Z, mkSeedRng [1; 2; 3; 4; 5; 6; 7]%Z 6).
Proof. rewrite randomColor_spec. vm_compute. reflexivity. Defined.

Lemma randomColor_digit_uniform_witness :
  (parse_hex_color (fst (randomColor (seed_rng [2 ^ 53 - 1; 0; 0; 0; 0; 0]%Z))) ≫= lookup 0)
    = Some 15%Z.
Proof.
  apply (randomColor_digit_uniform _ 0 15). exists (2 ^ 53 - 1)%Z.
  split; [vm_compute; reflexivity | lia].
Defined.

Lemma randomColor_surjective_witness :
  is_hex_color "#ffffff" = true /\ exists rs, fst (randomColor (seed_rng rs)) = "#ffffff".
Proof. split; [reflexivity | apply randomColor_surjective; reflexivity]. Defined.
