(* ===== verification/Styled.v ===== *)
(** * Styled: the styled-components of [index.tsx] and the CSS cascade

    Lines 170-317 declare seventeen styled components
    ([styled.div`...`], [styled.form`...`], [styled.input`...`],
    [styled.button`...`]).  Each is a tag and a template literal holding a
    block of CSS declarations, with the nested rules [&::placeholder { ... }]
    ([TitleInput]) and [&:hover { ... }] ([SelectButton]).  [Styled] is that
    pair, and each component is a [Definition] whose template is the
    source's literal, character for character.

    styled-components hands the template to its CSS preprocessor, which reads
    it as a block of declarations and nested rules; [parse_template] is that
    reading (split at [;], [{] and [}], a declaration split at its first [:]
    and trimmed), and [print_template] writes items back in the layout of the
    source.  Parsing the printing of well-formed items gives them back
    ([parse_print_template]), the evidence that the reader is the inverse of
    the layout the templates are written in.

    [computed] is the cascade for one element of a component: the class's
    declarations in order, then (when the pointer is over the element) those
    of its [&:hover] rule, whose selector is more specific, then the inline
    style.  The [background] shorthand sets each of its longhands
    ([background_longhands], CSS Backgrounds 3): a value that is a color
    ([#rrggbb]) sets [background-color] and [background-image: none]; any
    other value the program writes (a gradient, [url(...)]) is an image layer
    over a [transparent] color; every other longhand returns to its initial
    value. *)

From stdpp Require Import base list gmap strings.
From Stdlib Require Import Ascii.
From S2P Require Import Prelude Color.

Inductive Tag := TagDiv | TagForm | TagInput | TagButton.

(** [styled.<tag>`<template>`] *)
Record Styled := styled { tag : Tag; template : string }.

(** Lines 170-174: [const Container = styled.div`...`]. *)
Definition Container : Styled := styled TagDiv "
  width: 100%;
  height: 100%;
  padding: 24px 0;
".

(** Lines 176-178: [const ServiceTitle = styled.div`...`]. *)
Definition ServiceTitle : Styled := styled TagDiv "
  font-size: 40px;
".

(** Lines 180-188: [const Wrapper = styled.div`...`]. *)
Definition Wrapper : Styled := styled TagDiv "
  width: 50%;
  height: 100%;

  margin: 0 auto;
  display: flex;
  flex-direction: column;
  padding: 24px;
".

(** Lines 190-200: [const Preview = styled.div`...`]. *)
Definition Preview : Styled := styled TagDiv "
  display: flex;
  flex-direction: column;
  align-items: center;
  margin-top: 16px;
  margin-bottom: 16px;
  width: 100%;
  height: 20vh;
  border: 1px solid #ccc;
  background: #000000;
".

(** Lines 202-206: [const RefreshContainer = styled.div`...`]. *)
Definition RefreshContainer : Styled := styled TagDiv "
  width: 100%;
  display: flex;
  justify-content: center;
".

(** Lines 208-219: [const Title = styled.div`...`]. *)
Definition Title : Styled := styled TagDiv "
  display: flex;
  justify-content: center;
  overflow: hidden;

  margin-top: 36px;

  width: 90%;

  font-size: 36px;
  color: #ffffff;
".

(** Lines 221-227: [const Divider = styled.div`...`]. *)
Definition Divider : Styled := styled TagDiv "
  width: 50%;
  height: 1px;
  background-color: #ffffff;
  margin-top: 12px;
  margin-bottom: 12px;
".

(** Lines 229-236: [const Subtitle = styled.div`...`]. *)
Definition Subtitle : Styled := styled TagDiv "
  display: flex;
  justify-content: center;
  overflow: hidden;
  width: 90%;
  font-size: 18px;
  color: #ffffff;
".

(** Lines 238-246: [const Category = styled.div`...`]. *)
Definition Category : Styled := styled TagDiv "
  display: flex;
  justify-content: center;
  margin-top: 32px;
  overflow: hidden;
  width: 90%;
  font-size: 13px;
  color: #ffffff;
".

(** Lines 248-254: [const InputContainer = styled.form`...`]. *)
Definition InputContainer : Styled := styled TagForm "
  width: 100%;

  display: flex;
  flex-direction: column;
  margin-top: 48px;
".

(** Lines 256-261: [const InputWrapper = styled.div`...`]. *)
Definition InputWrapper : Styled := styled TagDiv "
  display: flex;
  gap: 10px;
  padding-top: 24px;
  padding-bottom: 24px;
".

(** Lines 263-275: [const TitleInput = styled.input`...`]. *)
Definition TitleInput : Styled := styled TagInput "
  position: relative;
  width: 100%;
  height: 30px;
  font-size: 16px;
  font-weight: bold;
  padding: 8px;
  border-radius: 4px;
  border: 1px solid #aaa;
  &::placeholder {
    font-size: 16px;
  }
".

(** Lines 277-283: [const InputDivider = styled.div`...`]. *)
Definition InputDivider : Styled := styled TagDiv "
  width: 100%;
  height: 1px;
  background-color: #cccccc;
  margin-top: 24px;
  margin-bottom: 24px;
".

(** Lines 285-291: [const SelectContainer = styled.div`...`]. *)
Definition SelectContainer : Styled := styled TagDiv "
  width: 100%;

  display: flex;
  align-items: center;
  gap: 12px;
".

(** Lines 293-297: [const SelectTitle = styled.div`...`]. *)
Definition SelectTitle : Styled := styled TagDiv "
  flex: 1;
  font-size: 20px;
  font-weight: bold;
".

(** Lines 299-304: [const ButtonWrapper = styled.div`...`]. *)
Definition ButtonWrapper : Styled := styled TagDiv "
  display: flex;
  flex: 3;

  gap: 16px;
".

(** Lines 306-317: [const SelectButton = styled.button`...`]. *)
Definition SelectButton : Styled := styled TagButton "
  flex: 1;
  border: none;
  cursor: pointer;
  background-color: #99ff99;
  border-radius: 24px;
  height: 40px;

  &:hover {
    background-color: #66ff66;
  }
".

(** ** Reading a template *)

Definition nl : string := String "010" EmptyString.

Definition is_space (c : ascii) : bool :=
  Ascii.eqb c " " || Ascii.eqb c "010" || Ascii.eqb c "013" || Ascii.eqb c "009".

Definition is_delim (c : ascii) : bool :=
  Ascii.eqb c ";" || Ascii.eqb c "{" || Ascii.eqb c "}".

Fixpoint ltrim (s : string) : string :=
  match s with
  | String c s' => if is_space c then ltrim s' else s
  | EmptyString => EmptyString
  end.

Fixpoint rtrim (s : string) : string :=
  match s with
  | EmptyString => EmptyString
  | String c s' =>
      let r := rtrim s' in
      if is_space c && String.eqb r "" then EmptyString else String c r
  end.

Definition trim (s : string) : string := rtrim (ltrim s).

(** The text before each delimiter [;], [{] or [}], with the delimiter, and
    the text after the last one. *)
Fixpoint chunks (s : string) : list (string * ascii) * string :=
  match s with
  | EmptyString => ([], EmptyString)
  | String c s' =>
      let '(cs, tl) := chunks s' in
      if is_delim c then (("", c) :: cs, tl)
      else match cs with
           | (t, d) :: cs' => ((String c t, d) :: cs', tl)
           | [] => ([], String c tl)
           end
  end.

(** The text before the first [d], and the text after it. *)
Fixpoint split_at (d : ascii) (s : string) : option (string * string) :=
  match s with
  | EmptyString => None
  | String c s' =>
      if Ascii.eqb c d then Some (EmptyString, s')
      else option_map (fun '(a, b) => (String c a, b)) (split_at d s')
  end.

(** [property: value], both trimmed and non-empty. *)
Definition parse_decl (t : string) : option (string * string) :=
  match split_at ":" t with
  | Some (p, v) =>
      let p' := trim p in let v' := trim v in
      if String.eqb p' "" || String.eqb v' "" then None else Some (p', v')
  | None => None
  end.

Inductive Item :=
  | Decl (property value : string)
  | Nested (selector : string) (body : list (string * string)).

(** The chunks of a block; [open] is the nested rule being read, with its
    declarations so far. *)
Fixpoint parse_chunks (open : option (string * list (string * string)))
    (cs : list (string * ascii)) : option (list Item) :=
  match cs, open with
  | [], None => Some []
  | [], Some _ => None
  | (t, d) :: cs', _ =>
      if Ascii.eqb d ";" then
        match parse_decl t, open with
        | Some (p, v), None =>
            match parse_chunks None cs' with Some its => Some (Decl p v :: its) | None => None end
        | Some (p, v), Some (sel, body) => parse_chunks (Some (sel, (body ++ [(p, v)])%list)) cs'
        | None, _ => None
        end
      else if Ascii.eqb d "{" then
        match open with
        | None => if String.eqb (trim t) "" then None else parse_chunks (Some (trim t, [])) cs'
        | Some _ => None
        end
      else
        match open with
        | Some (sel, body) =>
            if String.eqb (trim t) "" then
              match parse_chunks None cs' with
              | Some its => Some (Nested sel body :: its)
              | None => None
              end
            else None
        | None => None
        end
  end.

Definition parse_template (s : string) : option (list Item) :=
  let '(cs, tl) := chunks s in
  if String.eqb (trim tl) "" then parse_chunks None cs else None.

(** Items written back in the layout of the source: one declaration per
    line, indented by two spaces (four inside a nested rule). *)
Definition print_decl (indent : string) (pv : string * string) : string :=
  nl ++ indent ++ pv.1 ++ ": " ++ pv.2 ++ ";".

Definition print_item (it : Item) : string :=
  match it with
  | Decl p v => print_decl "  " (p, v)
  | Nested sel body =>
      nl ++ "  " ++ sel ++ " {" ++ foldr (fun d acc => print_decl "    " d ++ acc) "" body
        ++ nl ++ "  }"
  end.

Definition print_template (its : list Item) : string :=
  foldr (fun it acc => print_item it ++ acc) "" its ++ nl.

(** A property, value or selector as printed: non-empty, trimmed, without
    delimiters; a property also has no [:]. *)
Definition token_ok (s : string) : bool :=
  negb (String.eqb s "") && String.eqb (trim s) s && all_chars (fun c => negb (is_delim c)) s.

Definition decl_ok (pv : string * string) : bool :=
  token_ok pv.1 && all_chars (fun c => negb (Ascii.eqb c ":")) pv.1 && token_ok pv.2.

Definition item_ok (it : Item) : bool :=
  match it with
  | Decl p v => decl_ok (p, v)
  | Nested sel body => token_ok sel && forallb decl_ok body
  end.

(** ** The cascade *)

(** The declarations of the class rule, and those of a nested rule. *)
Definition class_decls (its : list Item) : list (string * string) :=
  its ≫= fun it => match it with Decl p v => [(p, v)] | Nested _ _ => [] end.

Definition nested_decls (sel : string) (its : list Item) : list (string * string) :=
  its ≫= fun it => match it with
                   | Nested s body => if String.eqb s sel then body else []
                   | Decl _ _ => []
                   end.

(** The longhands the [background] shorthand sets, for the values the
    program writes. *)
Definition background_longhands (v : string) : list (string * string) :=
  [("background-image", if is_hex_color v then "none" else v);
   ("background-position", "0% 0%"); ("background-size", "auto");
   ("background-repeat", "repeat"); ("background-origin", "padding-box");
   ("background-clip", "border-box"); ("background-attachment", "scroll");
   ("background-color", if is_hex_color v then v else "transparent")].

Definition expand (p v : string) : list (string * string) :=
  if String.eqb p "background" then background_longhands v else [(p, v)].

Definition apply_decls (m : gmap string string) (ds : list (string * string))
    : gmap string string :=
  foldl (fun m pv => foldl (fun m qw => <[qw.1 := qw.2]> m) m (expand pv.1 pv.2)) m ds.

(** The computed longhand [p] of an element of component [c]: the class's
    declarations, those of [&:hover] when [hover], then the inline style;
    [None] when nothing sets it (its initial or inherited value). *)
Definition computed (c : Styled) (hover : bool) (inline : list (string * string))
    (p : string) : option string :=
  match parse_template (template c) with
  | Some its =>
      apply_decls ∅ (class_decls its ++ (if hover then nested_decls "&:hover" its else [])
                     ++ inline)%list !! p
  | None => None
  end.

(** The chunks of a printed item. *)
Definition decl_text (indent : string) (pv : string * string) : string :=
  nl ++ indent ++ pv.1 ++ ": " ++ pv.2.

Definition item_chunks (it : Item) : list (string * ascii) :=
  match it with
  | Decl p v => [(decl_text "  " (p, v), ";"%char)]
  | Nested sel body =>
      ((nl ++ "  " ++ sel ++ " ")%string, "{"%char) ::
        map (fun d => (decl_text "    " d, ";"%char)) body ++ [((nl ++ "  ")%string, "}"%char)]
  end.

(** Hypotheses shared by the chunking lemmas: an indentation is blank and
    has no delimiter nor [:]. *)
Definition indent_ok (w : string) : bool :=
  all_chars is_space w && all_chars (fun c => negb (is_delim c)) w &&
  all_chars (fun c => negb (Ascii.eqb c ":")) w.

(** ** Lemmas on reading *)

Lemma chunks_app t d rest :
  all_chars (fun c => negb (is_delim c)) t = true -> is_delim d = true ->
  chunks (t ++ String d rest) = let '(cs, tl) := chunks rest in ((t, d) :: cs, tl).
Proof.
  intros Ht Hd. induction t as [|c t IH]; simpl in *.
  - rewrite Hd. by destruct (chunks rest).
  - apply andb_prop in Ht as [Hc Ht]. rewrite (IH Ht). apply negb_true_iff in Hc.
    destruct (chunks rest). by rewrite Hc.
Qed.

Lemma ltrim_spaces_app w s : all_chars is_space w = true -> ltrim (w ++ s) = ltrim s.
Proof. induction w as [|c w IH]; simpl; [done|]. intros [-> Hw]%andb_prop. by apply IH. Qed.

Lemma rtrim_spaces w : all_chars is_space w = true -> rtrim w = "".
Proof. induction w as [|c w IH]; simpl; [done|]. intros [-> Hw]%andb_prop. by rewrite IH. Qed.

Lemma rtrim_app_spaces s w : all_chars is_space w = true -> rtrim (s ++ w) = rtrim s.
Proof. intros Hw. induction s as [|c s IH]; simpl; [by apply rtrim_spaces|]. by rewrite IH. Qed.

Lemma ltrim_app s t : ltrim s <> "" -> ltrim (s ++ t) = ltrim s ++ t.
Proof. induction s as [|c s IH]; simpl; [done|]. by destruct (is_space c). Qed.

Lemma token_ok_spec s :
  token_ok s = true <->
  s <> "" /\ trim s = s /\ all_chars (fun c => negb (is_delim c)) s = true.
Proof.
  unfold token_ok. rewrite !andb_true_iff, negb_true_iff.
  destruct (String.eqb_spec s ""), (String.eqb_spec (trim s) s); naive_solver.
Qed.

(** A token between blanks reads back as itself. *)
Lemma trim_token w s w' :
  all_chars is_space w = true -> all_chars is_space w' = true -> token_ok s = true ->
  trim (w ++ s ++ w') = s.
Proof.
  intros Hw Hw' (Hne & Ht & _)%token_ok_spec. unfold trim in *.
  rewrite ltrim_spaces_app, ltrim_app, rtrim_app_spaces by (try done; by intros E; rewrite E in Ht).
  done.
Qed.

Lemma split_at_app d a b :
  all_chars (fun c => negb (Ascii.eqb c d)) a = true -> split_at d (a ++ String d b) = Some (a, b).
Proof.
  induction a as [|c a IH]; simpl; [by rewrite Ascii.eqb_refl|].
  intros [Hc Ha]%andb_prop. apply negb_true_iff in Hc. by rewrite Hc, IH.
Qed.
Lemma parse_decl_text w pv :
  all_chars is_space w = true -> all_chars (fun c => negb (Ascii.eqb c ":")) w = true ->
  decl_ok pv = true -> parse_decl (w ++ pv.1 ++ ": " ++ pv.2) = Some pv.
Proof.
  destruct pv as [p v]. unfold decl_ok, parse_decl. cbn [fst snd].
  intros Hw Hwc [[Hp Hpc]%andb_prop Hv]%andb_prop.
  change (": " ++ v) with (String ":" (" " ++ v)).
  rewrite <- string_app_assoc, split_at_app by (rewrite all_chars_app, Hwc; done).
  assert (trim (w ++ p) = p) as ->.
  { rewrite <- (string_app_nil_r (w ++ p)), string_app_assoc. by apply trim_token. }
  assert (trim (" " ++ v) = v) as ->.
  { rewrite <- (string_app_nil_r v) at 1. by apply trim_token. }
  apply token_ok_spec in Hp as [Hp _], Hv as [Hv _].
  by rewrite (proj2 (String.eqb_neq _ _) Hp), (proj2 (String.eqb_neq _ _) Hv).
Qed.

Lemma print_decl_app indent pv acc :
  print_decl indent pv ++ acc = decl_text indent pv ++ String ";" acc.
Proof. unfold print_decl, decl_text. by rewrite !string_app_assoc. Qed.

(** Side conditions on the characters of printed text. *)
Ltac chars :=
  unfold indent_ok, decl_ok, decl_text in *; cbn [fst snd] in *;
  repeat (rewrite ?all_chars_app, ?andb_true_iff in * ); destruct_and?;
  rewrite ?token_ok_spec in *; destruct_and?; split_and?; try done.

Lemma decl_text_nodelim indent pv :
  indent_ok indent = true -> decl_ok pv = true ->
  all_chars (fun c => negb (is_delim c)) (decl_text indent pv) = true.
Proof. destruct pv. intros. chars. Qed.

Lemma chunks_decls indent body rest :
  indent_ok indent = true -> Forall (fun d => decl_ok d = true) body ->
  chunks (foldr (fun d acc => print_decl indent d ++ acc) "" body ++ rest) =
    let '(cs, tl) := chunks rest in
    ((map (fun d => (decl_text indent d, ";"%char)) body ++ cs)%list, tl).
Proof.
  intros Hi. induction 1 as [|d body Hd _ IH]; cbn [foldr map].
  - change ("" ++ rest) with rest. by destruct (chunks rest).
  - rewrite string_app_assoc, print_decl_app, chunks_app, IH by (done || by apply decl_text_nodelim).
    by destruct (chunks rest).
Qed.

Lemma chunks_item it rest :
  item_ok it = true ->
  chunks (print_item it ++ rest) = let '(cs, tl) := chunks rest in ((item_chunks it ++ cs)%list, tl).
Proof.
  destruct it as [p v|sel body]; unfold print_item, item_chunks, item_ok; intros Hok.
  - rewrite print_decl_app, chunks_app by (done || by apply (decl_text_nodelim "  " (p, v))).
    by destruct (chunks rest).
  - apply andb_prop in Hok as [Hsel Hbody]. apply forallb_Forall_true in Hbody.
    set (X := foldr (fun d acc => print_decl "    " d ++ acc) "" body).
    assert (E : nl ++ "  " ++ sel ++ " {" ++ X ++ nl ++ "  }" ++ rest =
                (nl ++ "  " ++ sel ++ " ") ++ String "{" (X ++ (nl ++ "  ") ++ String "}" rest))
      by (rewrite !string_app_assoc; reflexivity).
    rewrite !string_app_assoc, E, chunks_app by (try done; chars).
    subst X. rewrite chunks_decls, chunks_app by done.
    destruct (chunks rest). simpl.
    by rewrite <- app_assoc.
Qed.

Local Arguments parse_decl : simpl never.
Local Arguments decl_text : simpl never.
Local Arguments trim : simpl never.

Lemma parse_decl_text_ok indent pv :
  indent_ok indent = true -> decl_ok pv = true -> parse_decl (decl_text indent pv) = Some pv.
Proof.
  intros Hi Hd. unfold decl_text. rewrite <- string_app_assoc.
  apply parse_decl_text; [chars..|done].
Qed.

Lemma parse_chunks_decls sel b0 body cs :
  Forall (fun d => decl_ok d = true) body ->
  parse_chunks (Some (sel, b0)) (map (fun d => (decl_text "    " d, ";"%char)) body ++ cs)%list =
    parse_chunks (Some (sel, (b0 ++ body)%list)) cs.
Proof.
  intros Hb. revert b0. induction Hb as [|[p v] body Hd _ IH]; intros b0; simpl.
  - by rewrite app_nil_r.
  - rewrite parse_decl_text_ok by done. by rewrite IH, <- app_assoc.
Qed.

Lemma parse_chunks_item it cs :
  item_ok it = true ->
  parse_chunks None (item_chunks it ++ cs)%list =
    match parse_chunks None cs with Some its => Some (it :: its) | None => None end.
Proof.
  destruct it as [p v|sel body]; simpl; intros Hok.
  - by rewrite (parse_decl_text_ok "  " (p, v)).
  - apply andb_prop in Hok as [Hsel Hbody]. apply forallb_Forall_true in Hbody.
    assert (Hs : trim (nl ++ "  " ++ sel ++ " ") = sel).
    { rewrite <- string_app_assoc. by apply trim_token. }
    rewrite Hs. apply token_ok_spec in Hsel as Hne. destruct Hne as [Hne _].
    rewrite (proj2 (String.eqb_neq _ _) Hne), <- app_assoc, parse_chunks_decls by done.
    done.
Qed.

(** Reading the printing of well-formed items gives them back. *)
Lemma parse_print_template its :
  forallb item_ok its = true -> parse_template (print_template its) = Some its.
Proof.
  intros Hok%forallb_Forall_true. unfold parse_template, print_template.
  assert (Hc : chunks (foldr (fun it acc => print_item it ++ acc) "" its ++ nl) =
               (flat_map item_chunks its, nl)).
  { induction Hok as [|it its Hit _ IH]; [reflexivity|]. cbn [foldr flat_map].
    by rewrite string_app_assoc, chunks_item, IH. }
  rewrite Hc. change (String.eqb (trim nl) "") with true. cbn iota.
  clear Hc. induction Hok as [|it its Hit _ IH]; [done|]. cbn [flat_map].
  by rewrite parse_chunks_item, IH.
Qed.

(** ** Lemmas on the cascade *)

Lemma apply_decls_app m l1 l2 :
  apply_decls m (l1 ++ l2)%list = apply_decls (apply_decls m l1) l2.
Proof. apply foldl_app. Qed.

(** The inline [background] then [background-size] decide the four
    longhands that show, whatever the class set before. *)
Lemma apply_background m v size :
  let m' := apply_decls m [("background", v); ("background-size", size)] in
  m' !! "background-image" = Some (if is_hex_color v then "none" else v) /\
  m' !! "background-color" = Some (if is_hex_color v then v else "transparent") /\
  m' !! "background-size" = Some size /\ m' !! "background-repeat" = Some "repeat".
Proof.
  change (apply_decls m _) with
    (<["background-size" := size]> (<["background-color" := if is_hex_color v then v else "transparent"]>
     (<["background-attachment" := "scroll"]> (<["background-clip" := "border-box"]>
     (<["background-origin" := "padding-box"]> (<["background-repeat" := "repeat"]>
     (<["background-size" := "auto"]> (<["background-position" := "0% 0%"]>
     (<["background-image" := if is_hex_color v then "none" else v]> m))))))))).
  simpl. split_and!; by simplify_map_eq.
Qed.
