(* ===== verification/Form.v ===== *)
(** * Form: the react-hook-form store of [Main] and its handlers

    [Main] calls [useForm({ mode: 'onChange' })] (lines 10-23) with no
    default values and registers no field: the three fields ['title'],
    ['subtitle'] and ['category'] live only in the store's values, written by
    the [onChange] handlers of the three inputs (lines 115-117, 123-125,
    131-133) through [setValue(name, value, { shouldValidate: true,
    shouldDirty: true })] and read by [useWatch] (lines 25-27).  [resetInput]
    (lines 32-34) calls [reset] with three empty strings.

    The store is modelled as react-hook-form 7 keeps it: the current values
    ([_formValues]), the default values ([_defaultValues], the values of the
    last [reset]) and the set of dirty fields; a JavaScript object keyed by
    field name is a [gmap string string] and an absent key is [undefined].
    [setValue] with [shouldDirty] marks the field dirty exactly when the new
    value differs from its default value; [reset(values)] makes [values] both
    the current and the default values and clears the dirty fields.  No
    validation rule is registered, so [shouldValidate] produces no error and
    is not modelled further. *)

From stdpp Require Import base gmap strings.
From S2P Require Import Prelude.

Record FormState := mkForm {
  formValues : gmap string string;
  defaultValues : gmap string string;
  dirtyFields : gset string;
}.

(** The options object of [setValue]. *)
Record SetValueConfig := mkSetValueConfig {
  shouldValidate : bool;
  shouldDirty : bool;
}.

(** ** The library's operations *)

(** [useForm({ mode: 'onChange' })]: no default values. *)
Definition useForm : FormState := mkForm ∅ ∅ ∅.

(** The dirty flag of [name] after an update: cleared when the field is
    pristine (its value equals its default value), set otherwise. *)
Definition mark_dirty (pristine : bool) (name : string) (dirty : gset string)
    : gset string :=
  if pristine then dirty ∖ {[name]} else {[name]} ∪ dirty.

Definition setValue (name value : string) (cfg : SetValueConfig) (fs : FormState)
    : FormState :=
  mkForm (<[name := value]> (formValues fs)) (defaultValues fs)
    (if shouldDirty cfg then
       mark_dirty (bool_decide (defaultValues fs !! name = Some value)) name (dirtyFields fs)
     else dirtyFields fs).

Definition reset (values : gmap string string) (fs : FormState) : FormState :=
  mkForm values values ∅.

Definition useWatch (name : string) (fs : FormState) : option string :=
  formValues fs !! name.

(** ** [Main]'s use of the store *)

(** [const title = useWatch({ control, name: 'title' })] and the two others. *)
Definition title (fs : FormState) : option string := useWatch "title" fs.
Definition subtitle (fs : FormState) : option string := useWatch "subtitle" fs.
Definition category (fs : FormState) : option string := useWatch "category" fs.

(** [reset({ title: '', subtitle: '', category: '' })] *)
Definition resetInput (fs : FormState) : FormState :=
  reset {[ "title" := ""; "subtitle" := ""; "category" := "" ]} fs.

Definition onChange_config : SetValueConfig := mkSetValueConfig true true.

(** [onChange={(e) => { setValue('title', e.target.value, { shouldValidate:
    true, shouldDirty: true }); }}] and the two others. *)
Definition onChange_title (value : string) (fs : FormState) : FormState :=
  setValue "title" value onChange_config fs.
Definition onChange_subtitle (value : string) (fs : FormState) : FormState :=
  setValue "subtitle" value onChange_config fs.
Definition onChange_category (value : string) (fs : FormState) : FormState :=
  setValue "category" value onChange_config fs.

(** The three inputs, by the field each one writes. *)
Inductive Field := FTitle | FSubtitle | FCategory.

Definition field_name (f : Field) : string :=
  match f with
  | FTitle => "title"
  | FSubtitle => "subtitle"
  | FCategory => "category"
  end.

Definition onChange (f : Field) : string -> FormState -> FormState :=
  match f with
  | FTitle => onChange_title
  | FSubtitle => onChange_subtitle
  | FCategory => onChange_category
  end.

#[export] Instance Field_eq_dec : EqDecision Field.
Proof. solve_decision. Defined.

(** ** Lemmas on the library's operations *)

Lemma useWatch_setValue_eq name value cfg fs :
  useWatch name (setValue name value cfg fs) = Some value.
Proof. apply lookup_insert_eq. Qed.

Lemma useWatch_setValue_ne name name' value cfg fs :
  name <> name' -> useWatch name' (setValue name value cfg fs) = useWatch name' fs.
Proof. intros Hne. by apply lookup_insert_ne. Qed.

Lemma dirty_setValue name value fs :
  name ∈ dirtyFields (setValue name value onChange_config fs) <->
    defaultValues fs !! name <> Some value.
Proof. simpl. unfold mark_dirty. case_bool_decide; set_solver. Qed.

Lemma mark_dirty_other p n n' d : n <> n' -> n' ∈ mark_dirty p n d <-> n' ∈ d.
Proof. intros Hne. unfold mark_dirty. destruct p; set_solver. Qed.

#[export] Hint Rewrite useWatch_setValue_eq : thumb_rw.
#[export] Hint Resolve useWatch_setValue_ne : thumb.

Lemma onChange_setValue f v fs : onChange f v fs = setValue (field_name f) v onChange_config fs.
Proof. by destruct f. Qed.

Lemma field_name_inj f f' : field_name f = field_name f' -> f = f'.
Proof. by destruct f, f'. Qed.

Lemma field_name_ne f f' : f <> f' -> field_name f <> field_name f'.
Proof. intros Hne Heq. by apply Hne, field_name_inj. Qed.

Lemma setValue_defaultValues name v cfg fs :
  defaultValues (setValue name v cfg fs) = defaultValues fs.
Proof. reflexivity. Qed.

#[export] Hint Resolve field_name_ne : thumb.
#[export] Hint Rewrite onChange_setValue setValue_defaultValues : thumb_rw.

(** ** Theorems *)

(** C16: an edit of one input shows its value in that field's [useWatch] and
    leaves the two other fields as they were. *)
Theorem onChange_watch f v fs :
  useWatch (field_name f) (onChange f v fs) = Some v /\
  forall f', f' <> f -> useWatch (field_name f') (onChange f v fs) = useWatch (field_name f') fs.
Proof.
  rewrite onChange_setValue. split; [apply useWatch_setValue_eq|].
  intros f' Hne. apply useWatch_setValue_ne. by apply field_name_ne.
Qed.

(** C17: dirty flags as react-hook-form computes them: after an edit the field
    is dirty exactly when the typed value differs from its default value
    (before any [reset] there is none, so every edit, also to [""], marks the
    field dirty); the other fields' flags are unchanged. *)
Theorem onChange_dirty f v fs :
  (field_name f ∈ dirtyFields (onChange f v fs) <-> defaultValues fs !! field_name f <> Some v) /\
  forall f', f' <> f ->
    (field_name f' ∈ dirtyFields (onChange f v fs) <-> field_name f' ∈ dirtyFields fs).
Proof.
  rewrite onChange_setValue. split; [apply dirty_setValue|].
  intros f' Hne. apply mark_dirty_other. by apply field_name_ne.
Qed.

