(* ===== verification/Preview.v ===== *)
(** * Preview: the [#preview] element and what it displays

    The element is the styled [div] [Preview] (lines 190-200, whose class
    paints [background: #000000]) rendered at lines 98-103 with the three
    texts [title ? title : '...'] and the placeholders of lines 99, 101 and
    102.  Its background is not React state: the handlers look the element up
    with [document.getElementById('preview')] and assign
    [preview.style.background] and [preview.style.backgroundSize].

    [Style] is the element's inline style (an unset property is [None]).
    Assigning the shorthand [background] also resets the longhand
    [background-size] to its initial value [auto] (CSS Backgrounds 3, the
    [background] shorthand), which [set_background] writes out.  [render]
    is the display: the three texts and the effective background and size
    (the inline value when set, otherwise the class's).  The handlers only
    assign values the browser parses ([#rrggbb], [linear-gradient(...)],
    [url(...)]); a browser ignores an assignment of an unparsable value,
    which [set_background] does not model since the program never makes
    one. *)

From stdpp Require Import base gmap strings.
From S2P Require Import Prelude Form.

Record Style := mkStyle {
  background : option string;
  backgroundSize : option string;
}.

(** [Preview]'s class: [background: #000000]; [background-size] is left at
    its initial value. *)
Definition Preview_background : string := "#000000".
Definition background_size_initial : string := "auto".

Definition style_init : Style := mkStyle None None.

(** [preview.style.background = v] *)
Definition set_background (v : string) (st : Style) : Style :=
  mkStyle (Some v) (Some background_size_initial).

(** [preview.style.backgroundSize = v] *)
Definition set_backgroundSize (v : string) (st : Style) : Style :=
  mkStyle (background st) (Some v).

(** The placeholders of lines 99, 101 and 102. *)
Definition title_placeholder : string := "제목을 입력해주세요".
Definition subtitle_placeholder : string := "부제목을 입력해주세요".
Definition category_placeholder : string := "분류도 입력해보세요".

(** [v ? v : placeholder] for [v : string | undefined]. *)
Definition show_or (v : option string) (placeholder : string) : string :=
  match v with
  | Some s => if js_truthy v then s else placeholder
  | None => placeholder
  end.

Record View := mkView {
  view_title : string;
  view_subtitle : string;
  view_category : string;
  view_background : string;
  view_backgroundSize : string;
}.

(** Lines 98-103 with the element's style. *)
Definition render (fs : FormState) (st : Style) : View :=
  mkView (show_or (title fs) title_placeholder)
         (show_or (subtitle fs) subtitle_placeholder)
         (show_or (category fs) category_placeholder)
         (default Preview_background (background st))
         (default background_size_initial (backgroundSize st)).

Definition placeholder (f : Field) : string :=
  match f with
  | FTitle => title_placeholder
  | FSubtitle => subtitle_placeholder
  | FCategory => category_placeholder
  end.

(** The text a field shows. *)
Definition view_field (f : Field) (v : View) : string :=
  match f with
  | FTitle => view_title v
  | FSubtitle => view_subtitle v
  | FCategory => view_category v
  end.

(** ** Lemmas *)

Lemma show_or_spec v ph :
  show_or v ph = match v with Some s => if String.eqb s "" then ph else s | None => ph end.
Proof. destruct v as [s|]; [|done]. simpl. by destruct (String.eqb s ""). Qed.

Lemma view_field_render f fs st :
  view_field f (render fs st) = show_or (useWatch (field_name f) fs) (placeholder f).
Proof. by destruct f. Qed.

#[export] Hint Rewrite view_field_render : thumb_rw.

(** ** Theorems *)

(** C4: after an edit of an input with the string [s], the preview shows [s]
    verbatim in that field when [s] is non-empty, and the field's placeholder
    when [s] is empty. *)
Theorem render_onChange f s fs st :
  view_field f (render (onChange f s fs) st) =
    if String.eqb s "" then placeholder f else s.
Proof.
  rewrite view_field_render, onChange_setValue, useWatch_setValue_eq, show_or_spec.
  done.
Qed.

