(* ===== verification/DataUrl.v ===== *)
(** * DataUrl: what [FileReader.readAsDataURL] produces

    [onChangeImage] (lines 57-77) reads the chosen file with
    [reader.readAsDataURL(fileBlob)] and paints [url(${reader.result})].
    The browser (File API, "package data" for [DataURL]) produces
    ["data:" ++ type ++ ";base64," ++ base64(bytes)], with the base64 of
    RFC 4648 (alphabet [A-Za-z0-9+/], [=] padding).  This file models that
    platform function, which is not code of the repository. *)

From stdpp Require Import base list strings.
From Stdlib Require Import ZArith Lia Ascii Strings.Byte.
From S2P Require Import Prelude.

(** A file chosen in the picker: its MIME type and its bytes. *)
Record Blob := mkBlob { blob_type : string; blob_bytes : list byte }.

Definition base64_alphabet : string :=
  "ABCDEFGHIJKLMNOPQRSTUVWXYZabcdefghijklmnopqrstuvwxyz0123456789+/".

(** The character of a 6-bit value. *)
Definition b64_char (n : Z) : string :=
  match String.get (Z.to_nat n) base64_alphabet with
  | Some c => String c EmptyString
  | None => ""
  end.

Definition byteZ (b : byte) : Z := Z.of_N (Byte.to_N b).

(** Three bytes as four characters; two bytes as three and [=]; one byte as
    two and [==]. *)
Definition enc3 (b1 b2 b3 : byte) : string :=
  let n := (byteZ b1 * 65536 + byteZ b2 * 256 + byteZ b3)%Z in
  b64_char (n / 262144) ++ b64_char ((n / 4096) mod 64) ++
  b64_char ((n / 64) mod 64) ++ b64_char (n mod 64).

Definition enc2 (b1 b2 : byte) : string :=
  let n := (byteZ b1 * 65536 + byteZ b2 * 256)%Z in
  b64_char (n / 262144) ++ b64_char ((n / 4096) mod 64) ++
  b64_char ((n / 64) mod 64) ++ "=".

Definition enc1 (b1 : byte) : string :=
  let n := (byteZ b1 * 65536)%Z in
  b64_char (n / 262144) ++ b64_char ((n / 4096) mod 64) ++ "==".

Fixpoint base64_encode (bs : list byte) : string :=
  match bs with
  | b1 :: b2 :: b3 :: rest => enc3 b1 b2 b3 ++ base64_encode rest
  | [b1; b2] => enc2 b1 b2
  | [b1] => enc1 b1
  | [] => ""
  end.

(** [reader.result] once [readAsDataURL(blob)] has loaded. *)
Definition readAsDataURL (blob : Blob) : string :=
  "data:" ++ blob_type blob ++ ";base64," ++ base64_encode (blob_bytes blob).

(** ** Decoding (the inverse, for the round trip) *)

Definition b64_value (c : ascii) : option Z := option_map Z.of_nat (index_of c base64_alphabet).

Definition byte_of_Z (z : Z) : byte :=
  match Byte.of_N (Z.to_N z) with Some b => b | None => x00 end.

(** The first [k] bytes of the 24-bit group [n]. *)
Definition group_bytes (k : nat) (n : Z) : list byte :=
  take k [byte_of_Z (n / 65536); byte_of_Z ((n / 256) mod 256); byte_of_Z (n mod 256)].

Definition dec_quad (c1 c2 c3 c4 : ascii) : option (list byte) :=
  match b64_value c1, b64_value c2 with
  | Some d1, Some d2 =>
      let n2 := (d1 * 262144 + d2 * 4096)%Z in
      if Ascii.eqb c3 "=" then
        if Ascii.eqb c4 "=" then Some (group_bytes 1 n2) else None
      else
        match b64_value c3 with
        | Some d3 =>
            if Ascii.eqb c4 "=" then Some (group_bytes 2 (n2 + d3 * 64))
            else option_map (fun d4 => group_bytes 3 (n2 + d3 * 64 + d4)) (b64_value c4)
        | None => None
        end
  | _, _ => None
  end.

Fixpoint base64_decode (s : string) : option (list byte) :=
  match s with
  | EmptyString => Some []
  | String c1 (String c2 (String c3 (String c4 rest))) =>
      match dec_quad c1 c2 c3 c4 with
      | Some bs =>
          if Nat.eqb (length bs) 3 then option_map (app bs) (base64_decode rest)
          else match rest with EmptyString => Some bs | _ => None end
      | None => None
      end
  | _ => None
  end.

(** The bytes of a data URL: what follows its first [","], decoded. *)
Fixpoint after_comma (s : string) : option string :=
  match s with
  | EmptyString => None
  | String c s' => if Ascii.eqb c "," then Some s' else after_comma s'
  end.

Definition data_url_bytes (u : string) : option (list byte) :=
  match after_comma u with Some p => base64_decode p | None => None end.

(** ** Lemmas *)

Lemma b64_char_spec d :
  (0 <= d < 64)%Z ->
  exists c, b64_char d = String c EmptyString /\ b64_value c = Some d /\ Ascii.eqb c "=" = false.
Proof.
  intros Hd. rewrite <- (Z2Nat.id d) by lia. assert (Hn : Z.to_nat d < 64) by lia.
  generalize (Z.to_nat d) Hn. clear. intros n Hn.
  do 64 (destruct n as [|n]; [eexists; split; [reflexivity|split; reflexivity]|]). lia.
Qed.

Lemma byteZ_range b : (0 <= byteZ b < 256)%Z.
Proof. unfold byteZ. pose proof (Byte.to_N_bounded b). lia. Qed.

Lemma byte_of_Z_byteZ b : byte_of_Z (byteZ b) = b.
Proof. unfold byte_of_Z, byteZ. rewrite N2Z.id, Byte.of_to_N. done. Qed.

Lemma group_bytes_3 b1 b2 b3 n :
  n = (byteZ b1 * 65536 + byteZ b2 * 256 + byteZ b3)%Z ->
  group_bytes 3 n = [b1; b2; b3].
Proof.
  intros ->. pose proof (byteZ_range b1). pose proof (byteZ_range b2).
  pose proof (byteZ_range b3). unfold group_bytes. cbn [take].
  set (n := (byteZ b1 * 65536 + byteZ b2 * 256 + byteZ b3)%Z).
  replace (n / 65536)%Z with (byteZ b1) by (unfold n; zlia).
  replace ((n / 256) mod 256)%Z with (byteZ b2) by (unfold n; zlia).
  replace (n mod 256)%Z with (byteZ b3) by (unfold n; zlia).
  by rewrite !byte_of_Z_byteZ.
Qed.

(** The three digits of the group [n] (the top six bits, the next six, ...) are
    in range and rebuild [n]. *)
Lemma group_digits n :
  (0 <= n < 2 ^ 24)%Z ->
  (0 <= n / 262144 < 64)%Z /\ (0 <= (n / 4096) mod 64 < 64)%Z /\
  (0 <= (n / 64) mod 64 < 64)%Z /\ (0 <= n mod 64 < 64)%Z /\
  (n / 262144 * 262144 + (n / 4096) mod 64 * 4096 + (n / 64) mod 64 * 64 + n mod 64 = n)%Z.
Proof. intros Hn. repeat split; zlia. Qed.

Lemma decode_enc3 b1 b2 b3 rest :
  base64_decode (enc3 b1 b2 b3 ++ rest) = option_map (app [b1; b2; b3]) (base64_decode rest).
Proof.
  unfold enc3. set (n := (byteZ b1 * 65536 + byteZ b2 * 256 + byteZ b3)%Z).
  pose proof (byteZ_range b1). pose proof (byteZ_range b2). pose proof (byteZ_range b3).
  destruct (group_digits n ltac:(unfold n; lia)) as (D1 & D2 & D3 & D4 & Hn).
  destruct (b64_char_spec _ D1) as (c1 & -> & V1 & _).
  destruct (b64_char_spec _ D2) as (c2 & -> & V2 & _).
  destruct (b64_char_spec _ D3) as (c3 & -> & V3 & E3).
  destruct (b64_char_spec _ D4) as (c4 & -> & V4 & E4).
  simpl. unfold dec_quad. rewrite V1, V2, E3, V3, E4, V4. simpl.
  rewrite Hn. pose proof (group_bytes_3 b1 b2 b3 n eq_refl) as G.
  unfold group_bytes in G. simpl in G. injection G as -> -> ->. done.
Qed.

Lemma decode_enc2 b1 b2 :
  base64_decode (enc2 b1 b2) = Some [b1; b2].
Proof.
  unfold enc2. set (n := (byteZ b1 * 65536 + byteZ b2 * 256)%Z).
  pose proof (byteZ_range b1). pose proof (byteZ_range b2).
  destruct (group_digits n ltac:(unfold n; lia)) as (D1 & D2 & D3 & D4 & Hn).
  destruct (b64_char_spec _ D1) as (c1 & -> & V1 & _).
  destruct (b64_char_spec _ D2) as (c2 & -> & V2 & _).
  destruct (b64_char_spec _ D3) as (c3 & -> & V3 & E3).
  simpl. unfold dec_quad. rewrite V1, V2, E3, V3. simpl.
  assert (Hg : group_bytes 3 (n / 262144 * 262144 + (n / 4096) mod 64 * 4096 + (n / 64) mod 64 * 64)
               = [b1; b2; x00]).
  { assert (Hm : (n mod 64 = 0)%Z) by (unfold n; zlia).
    apply group_bytes_3. change (byteZ x00) with 0%Z. unfold n in Hm, Hn |- *. lia. }
  revert Hg. unfold group_bytes. simpl. by intros [= -> -> _].
Qed.

Lemma decode_enc1 b1 :
  base64_decode (enc1 b1) = Some [b1].
Proof.
  unfold enc1. set (n := (byteZ b1 * 65536)%Z). pose proof (byteZ_range b1).
  destruct (group_digits n ltac:(unfold n; lia)) as (D1 & D2 & D3 & D4 & Hn).
  destruct (b64_char_spec _ D1) as (c1 & -> & V1 & _).
  destruct (b64_char_spec _ D2) as (c2 & -> & V2 & _).
  simpl. unfold dec_quad. rewrite V1, V2. simpl.
  assert (Hg : group_bytes 3 (n / 262144 * 262144 + (n / 4096) mod 64 * 4096) = [b1; x00; x00]).
  { assert (Hm : ((n / 64) mod 64 = 0 /\ n mod 64 = 0)%Z) by (unfold n; split; zlia).
    apply group_bytes_3. change (byteZ x00) with 0%Z. unfold n in Hm, Hn |- *. lia. }
  revert Hg. unfold group_bytes. simpl. by intros [= -> _ _].
Qed.

Lemma base64_roundtrip bs : base64_decode (base64_encode bs) = Some bs.
Proof.
  remember (length bs) as n eqn:E. revert bs E.
  induction n as [n IH] using lt_wf_ind. intros bs ->.
  destruct bs as [|b1 [|b2 [|b3 rest]]]; cbn [base64_encode].
  - done.
  - apply decode_enc1.
  - apply decode_enc2.
  - rewrite decode_enc3, (IH (length rest) ltac:(simpl; lia) rest eq_refl). done.
Qed.

Lemma after_comma_app s t :
  index_of "," s = None -> after_comma (s ++ t) = after_comma t.
Proof.
  induction s as [|c s IH]; intros H; [done|].
  change (after_comma (String c (s ++ t)) = after_comma t). cbn [after_comma].
  cbn [index_of] in H. destruct (Ascii.eqb_spec "," c) as [<-|Hne]; [discriminate|].
  destruct (Ascii.eqb_spec c ","); [congruence|].
  apply IH. destruct (index_of "," s); [discriminate|done].
Qed.

(** Decoding the data URL of a blob whose type has no [","] gives back its
    bytes. *)
Lemma readAsDataURL_roundtrip b :
  index_of "," (blob_type b) = None -> data_url_bytes (readAsDataURL b) = Some (blob_bytes b).
Proof.
  intros Hc. unfold data_url_bytes, readAsDataURL.
  change ("data:" ++ ?t) with (String "d" (String "a" (String "t" (String "a" (String ":" t))))).
  cbn [after_comma Ascii.eqb Bool.eqb]. rewrite after_comma_app by done.
  simpl. apply base64_roundtrip.
Qed.
