(* ===== verification/Main.v ===== *)
(** * Main: the component's state, its handlers and its event semantics

    The state [St] of one mounted [Main] (lines 9-168):
    - [form]: the react-hook-form store (see [Form]);
    - [style]: the inline style of the [#preview] element (see [Preview]);
    - [image]: the React state [const [image, setImage] = useState('')];
    - [rng]: the state of [Math.random] (see [Random]);
    - [pending]: the asynchronous work in flight, in the order it was
      started: a [fetch] of the random-image endpoint ([onClickRandomImage])
      or a [FileReader] reading a file ([onChangeImage]).

    One definition per handler: [onClickRandomGradient] (lines 36-42),
    [onClickRandomColor] (44-48), [onClickRandomImage] (50-55, the request)
    and [onClickRandomImage_then] (its [.then] callback, line 53),
    [onChangeImage] (57-62, the read), [onChangeImage_onload] (63-75, the
    [onload] callback) and [onClickImageUploadButton] (79-81).  [step] is the event loop: an event is a user action
    on an element of the JSX (lines 94-167) or the settling of one pending
    task, in any order; it returns how the handler completed and the new
    state, or [None] when the event cannot happen (no such pending task).
    The theorems here are about single events: the gradient's bounds, the
    error paths (rejected fetch, failed read, missing file), the spec's
    scenario, the upload round trip, that [resetInput] is never run, and
    the angle [Math.floor(Math.random() * 360)] under the rounding of the
    double product. *)

From stdpp Require Import base gmap list strings.
From Stdlib Require Import ZArith Lia Ascii.
From S2P Require Import Prelude Random Color Form Preview DataUrl.

(** Asynchronous work in flight. *)
Inductive Task :=
  | FetchTask                  (** [fetch(`https://source.unsplash.com/random/?all`)] *)
  | ReaderTask (file : Blob).  (** [reader.readAsDataURL(fileBlob)] *)

(** How a [fetch] settles: it resolves with a [Response] for every HTTP
    status, and rejects only on a network failure. *)
Inductive FetchOutcome :=
  | Resolved (status : Z) (url : string)
  | Rejected.

(** How a [FileReader] read ends: [load] or [error]. *)
Inductive ReadOutcome := Loaded | ReadFailed.

(** How a handler completes. *)
Inductive Completion :=
  | Normal
  | ThrewTypeError             (** a synchronous [TypeError] out of the handler *)
  | UnhandledRejection.        (** a rejected promise with no [catch] *)

Inductive Event :=
  | InputChange (f : Field) (value : string)   (** the [onChange] of an input *)
  | ClickRandomGradient                        (** [랜덤 그래디언트] *)
  | ClickRandomColor                           (** [랜덤 단색] *)
  | ClickRandomImage                           (** [랜덤 이미지] *)
  | ClickImageUpload                           (** [이미지 업로드]: opens the picker *)
  | FileInputChange (file : option Blob)       (** the file input's [onChange]: [files[0]] *)
  | ClickRefresh                               (** the refresh [IconButton] *)
  | FetchSettle (i : nat) (o : FetchOutcome)   (** the [i]-th pending task settles *)
  | ReaderSettle (i : nat) (o : ReadOutcome).

Section Main.
Context {G : Type} `{MathRandom G}.

Record St := mkSt {
  form : FormState;
  style : Style;
  image : string;
  rng : G;
  pending : list Task;
}.

(** The component at mount, with the generator's state [g]. *)
Definition init (g : G) : St := mkSt useForm style_init "" g [].

Definition with_form (fs : FormState) (s : St) : St :=
  mkSt fs (style s) (image s) (rng s) (pending s).
Definition with_style (st : Style) (s : St) : St :=
  mkSt (form s) st (image s) (rng s) (pending s).

(** [`linear-gradient(${angle}deg, ${colorOne}, ${colorTwo})`] *)
Definition gradient_css (angle : Z) (colorOne colorTwo : string) : string :=
  "linear-gradient(" ++ js_number angle ++ "deg, " ++ colorOne ++ ", " ++ colorTwo ++ ")".

(** [`url(${u})`] *)
Definition url_css (u : string) : string := "url(" ++ u ++ ")".

(** The draws of [onClickRandomGradient]: two colors, then the angle
    [Math.floor(Math.random() * 360)]. *)
Definition random_gradient : M G string :=
  colorOne <- randomColor ;;
  colorTwo <- randomColor ;;
  r <- math_random ;;
  ret (gradient_css (floor_mul r 360) colorOne colorTwo).

Definition onClickRandomGradient (s : St) : St :=
  let '(css, g') := random_gradient (rng s) in
  mkSt (form s) (set_background css (style s)) (image s) g' (pending s).

Definition onClickRandomColor (s : St) : St :=
  let '(color, g') := randomColor (rng s) in
  mkSt (form s) (set_background color (style s)) (image s) g' (pending s).

(** The request is started; nothing else happens until it settles. *)
Definition onClickRandomImage (s : St) : St :=
  mkSt (form s) (style s) (image s) (rng s) (pending s ++ [FetchTask]).

(** [preview.style.background = `url(${response.url})`] *)
Definition onClickRandomImage_then (response_url : string) (s : St) : St :=
  with_style (set_background (url_css response_url) (style s)) s.

(** [reader.readAsDataURL(fileBlob)] throws a [TypeError] when [fileBlob]
    is [undefined] (an empty [files] list); otherwise the read starts. *)
Definition onChangeImage (fileBlob : option Blob) (s : St) : Completion * St :=
  match fileBlob with
  | None => (ThrewTypeError, s)
  | Some b => (Normal, mkSt (form s) (style s) (image s) (rng s) (pending s ++ [ReaderTask b]))
  end.

(** [reader.onload]: paint the data URL, then [backgroundSize = 'cover'],
    then [setImage(file)]. *)
Definition onChangeImage_onload (file : string) (s : St) : St :=
  let st1 := set_background (url_css file) (style s) in
  let st2 := set_backgroundSize "cover" st1 in
  mkSt (form s) st2 file (rng s) (pending s).

(** [imageRef!.current!.click()]: a click on the hidden file input
    (line 150), which opens the browser's file picker; no state of the
    component changes, and the file chosen arrives later as the input's
    [change] event. *)
Definition onClickImageUploadButton (s : St) : St := s.

Definition with_pending (p : list Task) (s : St) : St :=
  mkSt (form s) (style s) (image s) (rng s) p.

Definition step (s : St) (e : Event) : option (Completion * St) :=
  match e with
  | InputChange f v => Some (Normal, with_form (onChange f v (form s)) s)
  | ClickRandomGradient => Some (Normal, onClickRandomGradient s)
  | ClickRandomColor => Some (Normal, onClickRandomColor s)
  | ClickRandomImage => Some (Normal, onClickRandomImage s)
  | ClickImageUpload => Some (Normal, onClickImageUploadButton s)
  | FileInputChange fb => Some (onChangeImage fb s)
  | ClickRefresh => Some (Normal, s)
  | FetchSettle i o =>
      match pending s !! i with
      | Some FetchTask =>
          let s1 := with_pending (delete i (pending s)) s in
          match o with
          | Resolved _ url => Some (Normal, onClickRandomImage_then url s1)
          | Rejected => Some (UnhandledRejection, s1)
          end
      | _ => None
      end
  | ReaderSettle i o =>
      match pending s !! i with
      | Some (ReaderTask b) =>
          let s1 := with_pending (delete i (pending s)) s in
          match o with
          | Loaded => Some (Normal, onChangeImage_onload (readAsDataURL b) s1)
          | ReadFailed => Some (Normal, s1)
          end
      | _ => None
      end
  end.

(** A sequence of events, stopping at the first one that cannot happen. *)
Fixpoint run (s : St) (es : list Event) : option St :=
  match es with
  | [] => Some s
  | e :: es' => match step s e with Some (_, s') => run s' es' | None => None end
  end.

(** The states the component can reach from mount. *)
Inductive reachable (g0 : G) : St -> Prop :=
  | reach_init : reachable g0 (init g0)
  | reach_step s e c s' : reachable g0 s -> step s e = Some (c, s') -> reachable g0 s'.
End Main.

Arguments St G : clear implicits.


(** ** Lemmas on the handlers and on [step] *)

Section StepLemmas.
Context {G : Type} `{MathRandomOk G}.

Lemma random_gradient_spec g :
  random_gradient g =
    let '(rs1, g1) := draws 6 g in
    let '(rs2, g2) := draws 6 g1 in
    let '(r, g3) := math_random g2 in
    (gradient_css (floor_mul r 360) (color_of_draws rs1) (color_of_draws rs2), g3).
Proof.
  unfold random_gradient, bind at 1. rewrite randomColor_eq.
  destruct (draws 6 g) as [rs1 g1]. unfold bind at 1. rewrite randomColor_eq.
  destruct (draws 6 g1) as [rs2 g2]. unfold bind, ret. by destruct (math_random g2).
Qed.

Lemma draws6_hex g : is_hex_color (color_of_draws (fst (draws 6 g))) = true.
Proof.
  unfold is_hex_color. apply bool_decide_eq_true.
  rewrite parse_color_of_draws; [done| apply draws_ok | apply draws_length].
Qed.

Lemma random_gradient_ok g :
  exists a c1 c2, fst (random_gradient g) = gradient_css a c1 c2 /\
    (0 <= a < 360)%Z /\ is_hex_color c1 = true /\ is_hex_color c2 = true.
Proof.
  rewrite random_gradient_spec. pose proof (draws6_hex g) as Hc1.
  destruct (draws 6 g) as [rs1 g1]. pose proof (draws6_hex g1) as Hc2.
  destruct (draws 6 g1) as [rs2 g2]. pose proof (math_random_ok g2) as Hr.
  destruct (math_random g2) as [r g3]. simpl in *.
  pose proof (floor_mul_range r 360 Hr ltac:(lia)).
  exists (floor_mul r 360), (color_of_draws rs1), (color_of_draws rs2). auto.
Qed.

(** Only the inputs' [onChange] handlers touch the form store. *)
Lemma step_form (s s' : St G) e c :
  step s e = Some (c, s') ->
  form s' = form s \/ exists f v, e = InputChange f v /\ form s' = onChange f v (form s).
Proof.
  destruct e as [f v| | | | |[b|]| |i o|i o]; simpl; intros Hstep; simplify_eq/=; eauto.
  - unfold onClickRandomGradient. destruct (random_gradient _); auto.
  - unfold onClickRandomColor. destruct (randomColor _); auto.
  - destruct (pending s !! i) as [[|]|]; [|done..]. destruct o; simplify_eq/=; auto.
  - destruct (pending s !! i) as [[|b]|]; [done| |done]. destruct o; simplify_eq/=; auto.
Qed.

Lemma step_fetch_settle (s : St G) i o :
  pending s !! i = Some FetchTask ->
  step s (FetchSettle i o) =
    Some (match o with
          | Resolved _ url =>
              (Normal, onClickRandomImage_then url (with_pending (delete i (pending s)) s))
          | Rejected => (UnhandledRejection, with_pending (delete i (pending s)) s)
          end).
Proof. intros Hi. simpl. rewrite Hi. by destruct o. Qed.

Lemma step_reader_settle (s : St G) i b o :
  pending s !! i = Some (ReaderTask b) ->
  step s (ReaderSettle i o) =
    Some (match o with
          | Loaded =>
              (Normal, onChangeImage_onload (readAsDataURL b) (with_pending (delete i (pending s)) s))
          | ReadFailed => (Normal, with_pending (delete i (pending s)) s)
          end).
Proof. intros Hi. simpl. rewrite Hi. by destruct o. Qed.

Lemma onClickRandomColor_pending (s : St G) :
  pending (onClickRandomColor s) = pending s /\ form (onClickRandomColor s) = form s.
Proof. unfold onClickRandomColor. by destruct (randomColor (rng s)). Qed.

Lemma run_cons (s : St G) e es :
  run s (e :: es) = match step s e with Some (_, s') => run s' es | None => None end.
Proof. reflexivity. Qed.
End StepLemmas.

(** ** Theorems *)

Section Theorems.
Context {G : Type} `{MathRandomOk G}.

(** C3: [pickRandomGradient]: the background [onClickRandomGradient]
    paints is [linear-gradient(<a>deg, <c1>, <c2>)] with an angle [a] in
    [[0, 360)] and two colors [c1], [c2] of the form [#rrggbb]. *)
Theorem onClickRandomGradient_bounds (s : St G) :
  exists a c1 c2,
    view_background (render (form s) (style (onClickRandomGradient s))) =
      gradient_css a c1 c2 /\
    (0 <= a < 360)%Z /\ is_hex_color c1 = true /\ is_hex_color c2 = true.
Proof.
  destruct (random_gradient_ok (rng s)) as (a & c1 & c2 & Hcss & Hb).
  exists a, c1, c2. split; [|done]. unfold onClickRandomGradient.
  destruct (random_gradient (rng s)). simpl in *. by subst.
Qed.

(** C6: fail-safe on a network failure: when the random-image request
    rejects, the promise rejection is unhandled and the form, the
    background and the [image] state are left as they were. *)
Theorem fetch_rejected_failsafe (s : St G) i :
  pending s !! i = Some FetchTask ->
  exists s', step s (FetchSettle i Rejected) = Some (UnhandledRejection, s') /\
    form s' = form s /\ style s' = style s /\ image s' = image s /\
    pending s' = delete i (pending s).
Proof. intros Hi. rewrite (step_fetch_settle s i Rejected Hi). by eexists. Qed.

(** C7: fail-safe on a read failure: when the [FileReader] fails, nothing
    handles the [error] event: the form, the background and the [image]
    state are left as they were (and the promise [onChangeImage] returned
    never settles). *)
Theorem reader_failed_failsafe (s : St G) i b :
  pending s !! i = Some (ReaderTask b) ->
  exists s', step s (ReaderSettle i ReadFailed) = Some (Normal, s') /\
    form s' = form s /\ style s' = style s /\ image s' = image s /\
    pending s' = delete i (pending s).
Proof. intros Hi. rewrite (step_reader_settle s i b ReadFailed Hi). by eexists. Qed.

(** C8: the spec's scenario: after typing "Hello", "World" and "Demo" in the
    three inputs and clicking the random-color button, the preview shows the
    three texts on a flat fill of the color [randomColor] drew. *)
Theorem scenario_hello_world (g : G) :
  exists s', run (init g) [InputChange FTitle "Hello"; InputChange FSubtitle "World";
                           InputChange FCategory "Demo"; ClickRandomColor] = Some s' /\
    render (form s') (style s') = mkView "Hello" "World" "Demo" (fst (randomColor g)) "auto".
Proof.
  cbn [run step]. unfold onClickRandomColor, with_form, init.
  cbn [form style image rng pending]. destruct (randomColor g) as [c g'].
  eexists. split; reflexivity.
Qed.

(** C12: [resetInput] is never executed: no element calls it (the refresh
    button has no [onClick]), so in every reachable state the store's
    default values are still empty and every edit of a field marks it
    dirty, also an edit back to the empty string. *)
Theorem reachable_no_reset (g0 : G) (s : St G) :
  reachable g0 s ->
  defaultValues (form s) = ∅ /\ forall f v, field_name f ∈ dirtyFields (onChange f v (form s)).
Proof.
  intros Hr. enough (Hd : defaultValues (form s) = ∅).
  { split; [done|]. intros f v. rewrite onChange_setValue, dirty_setValue, Hd.
    by rewrite lookup_empty. }
  induction Hr as [|s e c s' _ IH Hstep]; [done|].
  destruct (step_form s s' e c Hstep) as [->|(f & v & _ & ->)]; [done|].
  by rewrite onChange_setValue, setValue_defaultValues.
Qed.
(** C18: upload round trip: when the read of an uploaded file [b] (whose
    MIME type has no [","]) loads, the [image] state holds a data URL that
    decodes back to exactly the file's bytes, and the preview paints that
    data URL. *)
Theorem upload_roundtrip (s : St G) i b :
  pending s !! i = Some (ReaderTask b) -> index_of ","%char (blob_type b) = None ->
  exists s', step s (ReaderSettle i Loaded) = Some (Normal, s') /\
    data_url_bytes (image s') = Some (blob_bytes b) /\
    view_background (render (form s') (style s')) = url_css (image s').
Proof.
  intros Hi Hc. rewrite (step_reader_settle s i b Loaded Hi). eexists. split; [done|].
  split; [by apply readAsDataURL_roundtrip | done].
Qed.

End Theorems.


(** ** Witnesses, on a replayed generator *)

Local Abbreviation g_demo := (seed_rng (map (fun d => d * 2 ^ 49)%Z [3; 10; 7; 15; 13; 1; 0; 0; 0; 0; 0; 0; 100]%Z)).
Local Abbreviation blob_demo := (mkBlob "image/png" [Byte.x89; Byte.x50; Byte.x4e; Byte.x47]).
Local Abbreviation s_fetch := (onClickRandomImage (init g_demo)).
Local Abbreviation s_read := (snd (onChangeImage (Some blob_demo) (init g_demo))).

Lemma onClickRandomGradient_bounds_witness :
  exists a c1 c2,
    view_background (render (form (init g_demo)) (style (onClickRandomGradient (init g_demo)))) =
      gradient_css a c1 c2 /\
    (0 <= a < 360)%Z /\ is_hex_color c1 = true /\ is_hex_color c2 = true.
Proof. apply onClickRandomGradient_bounds. Defined.

Lemma fetch_rejected_failsafe_witness :
  pending s_fetch !! 0 = Some FetchTask /\
  exists s', step s_fetch (FetchSettle 0 Rejected) = Some (UnhandledRejection, s') /\
    form s' = form s_fetch /\ style s' = style s_fetch /\ image s' = image s_fetch /\
    pending s' = delete 0 (pending s_fetch).
Proof. split; [reflexivity | apply fetch_rejected_failsafe; reflexivity]. Defined.

Lemma reader_failed_failsafe_witness :
  pending s_read !! 0 = Some (ReaderTask blob_demo) /\
  exists s', step s_read (ReaderSettle 0 ReadFailed) = Some (Normal, s') /\
    form s' = form s_read /\ style s' = style s_read /\ image s' = image s_read /\
    pending s' = delete 0 (pending s_read).
Proof. split; [reflexivity | apply (reader_failed_failsafe s_read 0 blob_demo); reflexivity]. Defined.

(** The spec's scenario with the color [#3a7fd1]. *)
Lemma scenario_hello_world_witness :
  fst (randomColor g_demo) = "#3a7fd1" /\
  exists s', run (init g_demo) [InputChange FTitle "Hello"; InputChange FSubtitle "World";
                                InputChange FCategory "Demo"; ClickRandomColor] = Some s' /\
    render (form s') (style s') = mkView "Hello" "World" "Demo" (fst (randomColor g_demo)) "auto".
Proof. split; [vm_compute; reflexivity | apply scenario_hello_world]. Defined.

Lemma reachable_no_reset_witness :
  defaultValues (form (init g_demo)) = ∅ /\
  forall f v, field_name f ∈ dirtyFields (onChange f v (form (init g_demo))).
Proof. apply (reachable_no_reset g_demo). apply reach_init. Defined.

Lemma upload_roundtrip_witness :
  pending s_read !! 0 = Some (ReaderTask blob_demo) /\ index_of ","%char (blob_type blob_demo) = None /\
  exists s', step s_read (ReaderSettle 0 Loaded) = Some (Normal, s') /\
    data_url_bytes (image s') = Some (blob_bytes blob_demo) /\
    view_background (render (form s') (style s')) = url_css (image s').
Proof. split; [reflexivity | split; [reflexivity | apply upload_roundtrip; reflexivity]]. Defined.

