(* ===== verification/Background.v ===== *)
(** * Background: the active background, its invariant and the handlers' behaviour

    The spec's [BackgroundDescriptor] (section 3) is [Descriptor]; the code
    keeps no descriptor, only the inline style of [#preview], and [paint]
    is the style each handler leaves for a descriptor: [set_background] of
    the gradient, the color or [url(...)], and for an uploaded image also
    [backgroundSize = 'cover'].  The invariant [style_wf] says that in every
    reachable state the style is the initial one or [paint d] of one
    well-formed descriptor [d] (angle in [[0, 360)], [#rrggbb] colors): exactly
    one descriptor is active.  The theorems show the invariant, how an
    upload and a fetch response are painted, and the ordering of
    asynchronous completions. *)

From stdpp Require Import base gmap list strings.
From Stdlib Require Import ZArith Lia.
From S2P Require Import Prelude Random Color Form Preview DataUrl Main.

Inductive Descriptor :=
  | Gradient (angle : Z) (colorA colorB : string)
  | SolidColor (color : string)
  | RemoteImage (url : string)
  | UploadedImage (dataUri : string).

Definition descriptor_ok (d : Descriptor) : bool :=
  match d with
  | Gradient a c1 c2 => bool_decide (0 <= a < 360)%Z && is_hex_color c1 && is_hex_color c2
  | SolidColor c => is_hex_color c
  | RemoteImage _ | UploadedImage _ => true
  end.

(** The inline style the handlers leave for each descriptor. *)
Definition paint (d : Descriptor) : Style :=
  match d with
  | Gradient a c1 c2 => set_background (gradient_css a c1 c2) style_init
  | SolidColor c => set_background c style_init
  | RemoteImage u => set_background (url_css u) style_init
  | UploadedImage u => set_backgroundSize "cover" (set_background (url_css u) style_init)
  end.

Definition style_wf (st : Style) : Prop :=
  st = style_init \/ exists d, descriptor_ok d = true /\ st = paint d.

(** ** Lemmas on the handlers *)

Lemma set_background_any v st st' : set_background v st = set_background v st'.
Proof. reflexivity. Qed.

Section Handlers.
Context {G : Type} `{MathRandomOk G}.

Lemma onClickRandomColor_style (s : St G) :
  style (onClickRandomColor s) = paint (SolidColor (fst (randomColor (rng s)))).
Proof. unfold onClickRandomColor. by destruct (randomColor (rng s)). Qed.

Lemma onClickRandomGradient_style (s : St G) :
  exists a c1 c2, descriptor_ok (Gradient a c1 c2) = true /\
    style (onClickRandomGradient s) = paint (Gradient a c1 c2).
Proof.
  destruct (random_gradient_ok (rng s)) as (a & c1 & c2 & Hcss & Ha & Hc1 & Hc2).
  exists a, c1, c2. split.
  - simpl. rewrite Hc1, Hc2, bool_decide_eq_true_2 by done. done.
  - unfold onClickRandomGradient. destruct (random_gradient (rng s)). simpl in *. by subst.
Qed.
End Handlers.

Section StepLemmas.
Context {G : Type} `{MathRandomOk G}.

(** Every event leaves the style as it was or paints one well-formed
    descriptor. *)
Lemma step_style (s s' : St G) e c :
  step s e = Some (c, s') ->
  style s' = style s \/ exists d, descriptor_ok d = true /\ style s' = paint d.
Proof.
  destruct e as [f v| | | | |[b|]| |i o|i o]; simpl; intros Hstep; simplify_eq/=; auto.
  - right. destruct (onClickRandomGradient_style s) as (a & c1 & c2 & ? & ?). eauto.
  - right. exists (SolidColor (fst (randomColor (rng s)))).
    split; [simpl; apply randomColor_hex | apply onClickRandomColor_style].
  - destruct (pending s !! i) as [[|]|]; [|done..]. destruct o; simplify_eq/=; [|auto].
    right. by exists (RemoteImage url).
  - destruct (pending s !! i) as [[|b]|]; [done| |done]. destruct o; simplify_eq/=; [|auto].
    right. by exists (UploadedImage (readAsDataURL b)).
Qed.

End StepLemmas.

(** ** Theorems *)

Section Theorems.
Context {G : Type} `{MathRandomOk G}.

(** C1: invariant: in every state reachable from mount, by any interleaving
    of user events and completions, the [#preview] inline style is the
    initial one or the painting of exactly one well-formed descriptor
    (a gradient with an angle in [[0, 360)] and two [#rrggbb] colors, a
    [#rrggbb] color, a remote image, or an uploaded image with
    [background-size: cover]). *)
Theorem reachable_style_wf (g0 : G) (s : St G) :
  reachable g0 s -> style_wf (style s).
Proof.
  induction 1 as [|s e c s' _ IH Hstep]; [by left|].
  destruct (step_style s s' e c Hstep) as [->|(d & Hd & ->)]; [done|]. right. eauto.
Qed.

(** C5: upload: when the read of file [b] started by the file input loads,
    the preview shows [url(<data URL of b>)] with [background-size: cover]
    and the [image] state holds the data URL. *)
Theorem upload_loaded (s : St G) i b :
  pending s !! i = Some (ReaderTask b) ->
  exists s', step s (ReaderSettle i Loaded) = Some (Normal, s') /\
    style s' = paint (UploadedImage (readAsDataURL b)) /\
    image s' = readAsDataURL b /\ form s' = form s /\
    view_background (render (form s') (style s')) = url_css (readAsDataURL b) /\
    view_backgroundSize (render (form s') (style s')) = "cover".
Proof. intros Hi. rewrite (step_reader_settle s i b Loaded Hi). by eexists. Qed.

(** C11: a response of any HTTP status (an error page included) is painted:
    [fetch] resolves for every status and the callback paints
    [url(response.url)], with the initial [background-size] [auto]. *)
Theorem fetch_resolved_paints (s : St G) i status u :
  pending s !! i = Some FetchTask ->
  exists s', step s (FetchSettle i (Resolved status u)) = Some (Normal, s') /\
    style s' = paint (RemoteImage u) /\ form s' = form s /\ image s' = image s /\
    view_background (render (form s') (style s')) = url_css u /\
    view_backgroundSize (render (form s') (style s')) = "auto".
Proof. intros Hi. rewrite (step_fetch_settle s i (Resolved status u) Hi). by eexists. Qed.

End Theorems.

Section Ordering.
Context {G : Type} `{MathRandomOk G}.

(** C9: last writer wins, by completion order: a random-image request still
    in flight when the user picks a random color afterwards overwrites that
    newer color when it resolves (no request counter discards stale
    responses). *)
Theorem stale_fetch_overwrites (s : St G) i status u :
  pending s !! i = Some FetchTask ->
  exists s', run s [ClickRandomColor; FetchSettle i (Resolved status u)] = Some s' /\
    style s' = paint (RemoteImage u).
Proof.
  intros Hi. rewrite run_cons. simpl step.
  destruct (onClickRandomColor_pending s) as [Hp _].
  rewrite run_cons, step_fetch_settle by (by rewrite Hp). by eexists.
Qed.

(** C10: uploads are not serialised: two files chosen one after the other
    are read concurrently, and when the second read loads first, the first
    file's image is the one left on the preview and in [image]. *)
Theorem uploads_out_of_order (s : St G) b1 b2 :
  exists s',
    run s [FileInputChange (Some b1); FileInputChange (Some b2);
           ReaderSettle (S (length (pending s))) Loaded;
           ReaderSettle (length (pending s)) Loaded] = Some s' /\
    style s' = paint (UploadedImage (readAsDataURL b1)) /\
    image s' = readAsDataURL b1 /\ pending s' = pending s.
Proof.
  simpl. assert (Hn : S (length (pending s)) = length (pending s ++ [ReaderTask b1]))
    by (rewrite length_app; simpl; lia).
  rewrite Hn, (list_lookup_middle _ [] (ReaderTask b2)), delete_middle by done.
  simpl. rewrite app_nil_r, (list_lookup_middle _ [] (ReaderTask b1)) by done. simpl.
  rewrite delete_middle, app_nil_r. by eexists.
Qed.

End Ordering.

(** ** Witnesses, on a replayed generator *)

Local Abbreviation g_demo := (seed_rng (map (fun d => d * 2 ^ 49)%Z [3; 10; 7; 15; 13; 1; 0; 0; 0; 0; 0; 0; 100]%Z)).
Local Abbreviation blob_demo := (mkBlob "image/png" [Byte.x89; Byte.x50; Byte.x4e; Byte.x47]).
Local Abbreviation s_fetch := (onClickRandomImage (init g_demo)).
Local Abbreviation s_read := (snd (onChangeImage (Some blob_demo) (init g_demo))).

Lemma reachable_style_wf_witness : style_wf (style (onClickRandomColor (init g_demo))).
Proof.
  apply (reachable_style_wf g_demo).
  apply (reach_step _ (init g_demo) ClickRandomColor Normal); [apply reach_init | reflexivity].
Defined.

Lemma upload_loaded_witness :
  pending s_read !! 0 = Some (ReaderTask blob_demo) /\
  exists s', step s_read (ReaderSettle 0 Loaded) = Some (Normal, s') /\
    style s' = paint (UploadedImage (readAsDataURL blob_demo)) /\
    image s' = readAsDataURL blob_demo /\ form s' = form s_read /\
    view_background (render (form s') (style s')) = url_css (readAsDataURL blob_demo) /\
    view_backgroundSize (render (form s') (style s')) = "cover".
Proof. split; [reflexivity | apply upload_loaded; reflexivity]. Defined.

Lemma fetch_resolved_paints_witness :
  pending s_fetch !! 0 = Some FetchTask /\
  exists s', step s_fetch (FetchSettle 0 (Resolved 503 "https://source.unsplash.com/random/?all")) =
      Some (Normal, s') /\
    style s' = paint (RemoteImage "https://source.unsplash.com/random/?all") /\
    form s' = form s_fetch /\ image s' = image s_fetch /\
    view_background (render (form s') (style s')) = url_css "https://source.unsplash.com/random/?all" /\
    view_backgroundSize (render (form s') (style s')) = "auto".
Proof. split; [reflexivity | apply fetch_resolved_paints; reflexivity]. Defined.

Lemma stale_fetch_overwrites_witness :
  pending s_fetch !! 0 = Some FetchTask /\
  exists s', run s_fetch [ClickRandomColor; FetchSettle 0 (Resolved 200 "https://images.example/a.jpg")] =
      Some s' /\ style s' = paint (RemoteImage "https://images.example/a.jpg").
Proof. split; [reflexivity | apply stale_fetch_overwrites; reflexivity]. Defined.

Lemma uploads_out_of_order_witness :
  exists s',
    run (init g_demo) [FileInputChange (Some blob_demo); FileInputChange (Some (mkBlob "image/gif" []));
           ReaderSettle 1 Loaded; ReaderSettle 0 Loaded] = Some s' /\
    style s' = paint (UploadedImage (readAsDataURL blob_demo)) /\
    image s' = readAsDataURL blob_demo /\ pending s' = [].
Proof. apply (uploads_out_of_order (init g_demo)). Defined.

