(* ===== verification/Async.v ===== *)
(** * Async: the asynchronous work settles, and what [image] holds

    [Main] starts two kinds of asynchronous work: a [fetch] (line 52) and a
    [FileReader] read (line 60), kept in [pending] in the order they were
    started.  The browser settles each one eventually, with an outcome the
    model leaves open.  [settle_event fo ro i t] is the completion of the
    [i]-th task [t] with the outcome [fo] (a fetch) or [ro] (a read), and
    [drain fuel s] is the event loop settling the oldest task, one at a
    time, until none is left; [fuel] bounds the number of completions, and
    the number of pending tasks is enough.

    The theorems: [drain] terminates with no work left, the form unchanged,
    and is the run of the completions of the pending tasks in order; and
    the React state [image] ([useState<string | ArrayBuffer | null>('')],
    line 29) only ever holds [''] or the data URL of a file that was read. *)

From stdpp Require Import base list strings.
From Stdlib Require Import Lia.
From S2P Require Import Prelude Random Color Form Preview DataUrl Main.

(** The completion of the [i]-th pending task [t]. *)
Definition settle_event (fo : FetchOutcome) (ro : ReadOutcome) (i : nat) (t : Task) : Event :=
  match t with
  | FetchTask => FetchSettle i fo
  | ReaderTask _ => ReaderSettle i ro
  end.

Section Drain.
Context {G : Type} `{MathRandom G}.
Context (fo : FetchOutcome) (ro : ReadOutcome).

(** Settle the oldest pending task until none is left, within [fuel]
    completions. *)
Fixpoint drain (fuel : nat) (s : St G) : option (St G) :=
  match pending s with
  | [] => Some s
  | t :: _ =>
      match fuel with
      | O => None
      | S fuel' =>
          match step s (settle_event fo ro 0 t) with
          | Some (_, s') => drain fuel' s'
          | None => None
          end
      end
  end.
End Drain.

(** [image] as [useState] holds it: [''] or a data URL [readAsDataURL]
    produced. *)
Definition image_ok {G} (s : St G) : Prop :=
  image s = "" \/ exists b, image s = readAsDataURL b.

(** ** Lemmas *)

Section Lemmas.
Context {G : Type} `{MathRandomOk G}.

(** Settling the oldest task removes it, and leaves the form as it was. *)
Lemma settle_head (s : St G) fo ro t rest :
  pending s = t :: rest ->
  exists c s', step s (settle_event fo ro 0 t) = Some (c, s') /\
    pending s' = rest /\ form s' = form s.
Proof.
  intros Hp. assert (Hi : pending s !! 0 = Some t) by (by rewrite Hp).
  destruct t as [|b]; simpl settle_event.
  - rewrite (step_fetch_settle s 0 fo Hi). destruct fo; eexists _, _; split_and!; try done;
      simpl; by rewrite Hp.
  - rewrite (step_reader_settle s 0 b ro Hi). destruct ro; eexists _, _; split_and!; try done;
      simpl; by rewrite Hp.
Qed.

Lemma drain_run fuel (s : St G) fo ro :
  length (pending s) <= fuel ->
  drain fo ro fuel s = run s (map (settle_event fo ro 0) (pending s)).
Proof.
  revert s. induction fuel as [|fuel IH]; intros s Hlen; cbn [drain];
    destruct (pending s) as [|t rest] eqn:Hp; cbn [map run length] in *; [done|lia|done|].
  destruct (settle_head s fo ro t rest Hp) as (c & s' & -> & Hp' & _).
  rewrite IH by (rewrite Hp'; lia). by rewrite Hp'.
Qed.

(** Running the completions of the pending tasks, in order, empties
    [pending] and keeps the form. *)
Lemma run_settle_all (s : St G) fo ro :
  exists s', run s (map (settle_event fo ro 0) (pending s)) = Some s' /\
    pending s' = [] /\ form s' = form s.
Proof.
  remember (pending s) as p eqn:Hp. revert s Hp.
  induction p as [|t rest IH]; intros s Hp; [by exists s|].
  destruct (settle_head s fo ro t rest (eq_sym Hp)) as (c & s1 & Hst & Hp1 & Hf1).
  simpl. rewrite Hst. destruct (IH s1 (eq_sym Hp1)) as (s' & Hrun & Hp' & Hf').
  exists s'. split_and!; [done|done|congruence].
Qed.

(** Only the [onload] of a read writes [image], with the file's data URL. *)
Lemma step_image (s s' : St G) e c :
  step s e = Some (c, s') -> image s' = image s \/ exists b, image s' = readAsDataURL b.
Proof.
  destruct e as [f v| | | | |[b|]| |i o|i o]; simpl; intros Hstep; simplify_eq/=; eauto.
  - unfold onClickRandomGradient. destruct (random_gradient _); auto.
  - unfold onClickRandomColor. destruct (randomColor _); auto.
  - destruct (pending s !! i) as [[|]|]; [|done..]. destruct o; simplify_eq/=; auto.
  - destruct (pending s !! i) as [[|b]|]; [done| |done]. destruct o; simplify_eq/=; eauto.
Qed.
End Lemmas.

(** ** Theorems *)

Section Theorems.
Context {G : Type} `{MathRandomOk G}.

(** C23: termination: the event loop settling the oldest task, one at a
    time and with any outcomes, stops within as many completions as there
    are pending tasks; it leaves no work in flight, the form as it was, and
    it is the run of the completions of the pending tasks in order. *)
Theorem drain_terminates (s : St G) fo ro fuel :
  length (pending s) <= fuel ->
  exists s', drain fo ro fuel s = Some s' /\ pending s' = [] /\ form s' = form s /\
    run s (map (settle_event fo ro 0) (pending s)) = Some s'.
Proof.
  intros Hlen. rewrite drain_run by done.
  destruct (run_settle_all s fo ro) as (s' & Hrun & Hp & Hf). rewrite Hrun. by exists s'.
Qed.

(** C24: type of [image]: declared [string | ArrayBuffer | null], it only
    ever holds a string, the initial [''] or the data URL of a file the
    reader loaded ([readAsDataURL] makes [reader.result] a string). *)
Theorem reachable_image_ok (g0 : G) (s : St G) :
  reachable g0 s -> image_ok s.
Proof.
  induction 1 as [|s e c s' _ IH Hstep]; [by left|].
  unfold image_ok in *. destruct (step_image s s' e c Hstep) as [->|Hb]; [done|by right].
Qed.

End Theorems.

(** ** Witnesses *)

Local Abbreviation blob_demo := (mkBlob "image/png" [Byte.x89; Byte.x50; Byte.x4e; Byte.x47]).
Local Abbreviation s_two := (snd (onChangeImage (Some blob_demo) (onClickRandomImage (init (seed_rng []))))).

Lemma drain_terminates_witness :
  length (pending s_two) <= 2 /\
  exists s', drain Rejected Loaded 2 s_two = Some s' /\ pending s' = [] /\ form s' = form s_two /\
    run s_two (map (settle_event Rejected Loaded 0) (pending s_two)) = Some s'.
Proof. split; [simpl; lia | apply drain_terminates; simpl; lia]. Defined.

Lemma reachable_image_ok_witness :
  image_ok (onChangeImage_onload (readAsDataURL blob_demo) (with_pending [FetchTask] s_two)).
Proof.
  apply (reachable_image_ok (seed_rng [])).
  apply (reach_step _ s_two (ReaderSettle 1 Loaded) Normal).
  - apply (reach_step _ (onClickRandomImage (init (seed_rng []))) (FileInputChange (Some blob_demo)) Normal);
      [|reflexivity].
    apply (reach_step _ (init (seed_rng [])) ClickRandomImage Normal); [apply reach_init | reflexivity].
  - reflexivity.
Defined.
