(* ===== verification/Logging.v ===== *)
(** * Logging: what [Main] prints on the console

    Two [console.log] calls: the [reader.onload] callback prints the data
    URL it read (line 67, before it paints), and the effect
    [useEffect(() => { console.log(title); }, [title])] (lines 91-93)
    prints the title once at mount and then after every render where
    [title] differs, by [Object.is], from the previous render's.  [title]
    is a [string | undefined], and [console.log(undefined)] prints
    [undefined] ([log_value]).  A [ConsoleLine] records which call printed
    a line.  [step_log] is [step] with the lines an event prints: each
    event is followed by its own render, so the effect compares the titles
    before and after the event (React may batch the updates of several
    events into one render, and then prints only the last title; the model
    does not batch).  [run_log] is a run with its console output; at mount the effect has
    printed [log_value] of the initial title, [undefined].

    The theorem: along any run, the title lines are exactly the title after
    each change ([changes] of the trace of titles): no change is missed and
    no unchanged title is printed again, [undefined] and the string
    ["undefined"] being different values; and exactly one file line is
    printed per loaded read. *)

From stdpp Require Import base list strings.
From S2P Require Import Prelude Random Color Form Preview DataUrl Main.

Local Open Scope list_scope.

Inductive ConsoleLine :=
  | LogFile (file : string)    (** [console.log(file)], line 67 *)
  | LogTitle (title : string). (** [console.log(title)], line 92 *)

(** [console.log(v)] of a [string | undefined]. *)
Definition log_value (v : option string) : string :=
  match v with Some s => s | None => "undefined" end.

(** The effect on [[title]]: it runs when the title of the new render is
    not [Object.is] the previous one. *)
Definition title_effect (before after : option string) : list ConsoleLine :=
  if decide (before = after) then [] else [LogTitle (log_value after)].

Section Logging.
Context {G : Type} `{MathRandom G}.

(** The [onload] of the read an event completes prints its data URL. *)
Definition onload_log (s : St G) (e : Event) : list ConsoleLine :=
  match e with
  | ReaderSettle i Loaded =>
      match pending s !! i with
      | Some (ReaderTask b) => [LogFile (readAsDataURL b)]
      | _ => []
      end
  | _ => []
  end.

(** One event: the handler's lines, then the effect after the render. *)
Definition step_log (s : St G) (e : Event) : option (Completion * St G * list ConsoleLine) :=
  match step s e with
  | Some (c, s') => Some (c, s', onload_log s e ++ title_effect (title (form s)) (title (form s')))
  | None => None
  end.

Fixpoint run_log (s : St G) (es : list Event) : option (St G * list ConsoleLine) :=
  match es with
  | [] => Some (s, [])
  | e :: es' =>
      match step_log s e with
      | Some (_, s1, l1) =>
          match run_log s1 es' with
          | Some (s', l2) => Some (s', l1 ++ l2)
          | None => None
          end
      | None => None
      end
  end.

(** The title after each event of a run. *)
Fixpoint title_trace (s : St G) (es : list Event) : list (option string) :=
  match es with
  | [] => []
  | e :: es' =>
      match step s e with
      | Some (_, s1) => title (form s1) :: title_trace s1 es'
      | None => []
      end
  end.
End Logging.

(** The values of a trace that differ from the one before. *)
Fixpoint changes (prev : option string) (tr : list (option string)) : list (option string) :=
  match tr with
  | [] => []
  | t :: tr' => if decide (prev = t) then changes t tr' else t :: changes t tr'
  end.

Definition titles_of (l : list ConsoleLine) : list string :=
  l ≫= fun x => match x with LogTitle v => [v] | LogFile _ => [] end.

Definition files_of (l : list ConsoleLine) : list string :=
  l ≫= fun x => match x with LogFile u => [u] | LogTitle _ => [] end.

Definition is_load (e : Event) : bool :=
  match e with ReaderSettle _ Loaded => true | _ => false end.

(** ** Lemmas *)

Lemma titles_of_app l1 l2 : titles_of (l1 ++ l2) = titles_of l1 ++ titles_of l2.
Proof. apply bind_app. Qed.

Lemma files_of_app l1 l2 : files_of (l1 ++ l2) = files_of l1 ++ files_of l2.
Proof. apply bind_app. Qed.

Section LoggingLemmas.
Context {G : Type} `{MathRandomOk G}.

(** Only a loaded read prints a file line, and it always does. *)
Lemma onload_log_files (s s' : St G) e c :
  step s e = Some (c, s') ->
  titles_of (onload_log s e) = [] /\ length (files_of (onload_log s e)) = if is_load e then 1 else 0.
Proof.
  destruct e as [| | | | | | |i o|i [|]]; simpl; try done.
  destruct (pending s !! i) as [[|b]|]; done.
Qed.

Lemma title_effect_lines before after :
  titles_of (title_effect before after) = map log_value (changes before [after]) /\
  files_of (title_effect before after) = [].
Proof. unfold title_effect. simpl. by case_decide. Qed.

(** One event prints the title when it changes, and a file line when it
    loads a read. *)
Lemma step_log_lines (s s' : St G) e c l :
  step_log s e = Some (c, s', l) ->
  step s e = Some (c, s') /\
  titles_of l = map log_value (changes (title (form s)) [title (form s')]) /\
  length (files_of l) = if is_load e then 1 else 0.
Proof.
  unfold step_log. destruct (step s e) as [[c0 s0]|] eqn:E; [|done]. intros [= <- <- <-].
  destruct (onload_log_files s s0 e c0 E) as [Ht Hf].
  destruct (title_effect_lines (title (form s)) (title (form s0))) as [Ht' Hf'].
  rewrite titles_of_app, files_of_app, Ht, Ht', Hf', app_nil_r. done.
Qed.

Lemma changes_cons prev t tr :
  changes prev (t :: tr) = changes prev [t] ++ changes t tr.
Proof. simpl. by case_decide. Qed.
End LoggingLemmas.

(** ** Theorems *)

Section LoggingTheorems.
Context {G : Type} `{MathRandomOk G}.

(** C26: console output: along any run, the lines printed by the effect on
    [[title]] are the title after each change and only then (the trace of
    titles with the repetitions removed; [undefined] and the string
    ["undefined"] are different values but print alike), and exactly one
    line, the data URL, is printed per loaded read (each event rendered
    before the next). *)
Theorem run_log_console (s s' : St G) es l :
  run_log s es = Some (s', l) ->
  run s es = Some s' /\
  titles_of l = map log_value (changes (title (form s)) (title_trace s es)) /\
  length (files_of l) = length (List.filter is_load es).
Proof.
  revert s l. induction es as [|e es IH]; intros s l; simpl; [by intros [= <- <-]|].
  destruct (step_log s e) as [[[c s1] l1]|] eqn:E; [|done].
  destruct (run_log s1 es) as [[s2 l2]|] eqn:E2; [|done]. intros [= <- <-].
  destruct (step_log_lines s s1 e c l1 E) as (Hst & Ht & Hf).
  destruct (IH s1 l2 E2) as (Hrun & Ht2 & Hf2).
  rewrite Hst. cbn iota. split_and!; [done| |].
  - rewrite titles_of_app, Ht, Ht2, (changes_cons (title (form s)) (title (form s1)) (title_trace s1 es)), fmap_app. done.
  - rewrite files_of_app, length_app, Hf, Hf2. simpl. by destruct (is_load e).
Qed.
End LoggingTheorems.

(** ** Witnesses *)

Lemma run_log_console_witness :
  run_log (init (seed_rng [])) [InputChange FTitle "a"; InputChange FTitle "a";
     InputChange FSubtitle "x"; InputChange FTitle ""] =
    Some (with_form (onChange FTitle "" (onChange FSubtitle "x" (onChange FTitle "a"
            (onChange FTitle "a" useForm)))) (init (seed_rng [])), [LogTitle "a"; LogTitle ""]) /\
  titles_of [LogTitle "a"; LogTitle ""] =
    map log_value (changes None (title_trace (init (seed_rng []))
      [InputChange FTitle "a"; InputChange FTitle "a"; InputChange FSubtitle "x"; InputChange FTitle ""])).
Proof.
  assert (H : run_log (init (seed_rng [])) [InputChange FTitle "a"; InputChange FTitle "a";
     InputChange FSubtitle "x"; InputChange FTitle ""] =
    Some (with_form (onChange FTitle "" (onChange FSubtitle "x" (onChange FTitle "a"
            (onChange FTitle "a" useForm)))) (init (seed_rng [])), [LogTitle "a"; LogTitle ""]))
    by reflexivity.
  split; [exact H | apply (run_log_console _ _ _ _ H)].
Defined.
