(* ===== verification/Spec.v ===== *)
(** * Spec: the specification's abstract machine and the refinement

    The spec (sections 3-5) describes a Form State Holder with three text
    fields, a Background Selector whose operations make one
    [BackgroundDescriptor] active, and two kinds of asynchronous work (a
    remote fetch, a file decode) that may fail without changing anything.
    [AState] is that state: the three fields, the active descriptor and the
    work in flight; [AStep] is its transition relation, one constructor per
    operation of the spec (the random choices appear as any well-formed
    gradient or color).  [R] relates a state of [Main] to an abstract state:
    the same field values, the inline style is the painting of the active
    descriptor, and the pending tasks correspond one to one.  The theorems
    show that every [step] of [Main] is matched by an abstract step (or by
    none, for events that change nothing the spec sees), that every
    reachable state of [Main] refines a reachable abstract state, and that
    the texts and background [render] shows are the spec's rendering of
    that abstract state. *)

From stdpp Require Import base gmap list strings.
From Stdlib Require Import ZArith Lia.
From S2P Require Import Prelude Random Color Form Preview DataUrl Main Background.

(** Work in flight, as the spec sees it: a remote fetch, or a decode whose
    result is the given data URI. *)
Inductive APending := AFetch | ADecode (dataUri : string).

Record AState := mkAState {
  a_title : option string;
  a_subtitle : option string;
  a_category : option string;
  active : option Descriptor;
  apending : list APending;
}.

Definition afield (f : Field) (a : AState) : option string :=
  match f with
  | FTitle => a_title a
  | FSubtitle => a_subtitle a
  | FCategory => a_category a
  end.

(** [setField(name, value)] *)
Definition set_field (f : Field) (v : string) (a : AState) : AState :=
  match f with
  | FTitle => mkAState (Some v) (a_subtitle a) (a_category a) (active a) (apending a)
  | FSubtitle => mkAState (a_title a) (Some v) (a_category a) (active a) (apending a)
  | FCategory => mkAState (a_title a) (a_subtitle a) (Some v) (active a) (apending a)
  end.

(** The emitted descriptor becomes the active background. *)
Definition activate (d : Descriptor) (a : AState) : AState :=
  mkAState (a_title a) (a_subtitle a) (a_category a) (Some d) (apending a).

Definition with_apending (p : list APending) (a : AState) : AState :=
  mkAState (a_title a) (a_subtitle a) (a_category a) (active a) p.

Definition ainit : AState := mkAState None None None None [].

Inductive AStep : AState -> AState -> Prop :=
  | as_set_field f v a : AStep a (set_field f v a)
  | as_gradient ang c1 c2 a :
      descriptor_ok (Gradient ang c1 c2) = true -> AStep a (activate (Gradient ang c1 c2) a)
  | as_color c a : is_hex_color c = true -> AStep a (activate (SolidColor c) a)
  | as_request a : AStep a (with_apending (apending a ++ [AFetch]) a)
  | as_fetch_ok i url a :
      apending a !! i = Some AFetch ->
      AStep a (activate (RemoteImage url) (with_apending (delete i (apending a)) a))
  | as_fetch_error i a :
      apending a !! i = Some AFetch -> AStep a (with_apending (delete i (apending a)) a)
  | as_upload d a : AStep a (with_apending (apending a ++ [ADecode d]) a)
  | as_decode_ok i d a :
      apending a !! i = Some (ADecode d) ->
      AStep a (activate (UploadedImage d) (with_apending (delete i (apending a)) a))
  | as_decode_error i d a :
      apending a !! i = Some (ADecode d) -> AStep a (with_apending (delete i (apending a)) a).

Inductive AReach : AState -> Prop :=
  | areach_init : AReach ainit
  | areach_step a a' : AReach a -> AStep a a' -> AReach a'.

(** How the inline style shows the active descriptor. *)
Definition paint_opt (d : option Descriptor) : Style :=
  match d with Some d => paint d | None => style_init end.

Definition task_abs (t : Task) : APending :=
  match t with
  | FetchTask => AFetch
  | ReaderTask b => ADecode (readAsDataURL b)
  end.

Definition R {G} (s : St G) (a : AState) : Prop :=
  (forall f, useWatch (field_name f) (form s) = afield f a) /\
  style s = paint_opt (active a) /\
  apending a = task_abs <$> pending s.

(** The spec's rendering (section 4.3): each text or its placeholder, and
    the background of the active descriptor. *)
Definition arender_text (f : Field) (a : AState) : string := show_or (afield f a) (placeholder f).

Definition arender_background (a : AState) : string :=
  match active a with
  | Some (Gradient ang c1 c2) => gradient_css ang c1 c2
  | Some (SolidColor c) => c
  | Some (RemoteImage u) | Some (UploadedImage u) => url_css u
  | None => Preview_background
  end.

(** ** Lemmas *)

Lemma afield_set_field f f' v a :
  afield f' (set_field f v a) = if decide (f' = f) then Some v else afield f' a.
Proof. by destruct f, f'. Qed.

Lemma R_fields_onChange {G} (s : St G) a f v :
  (forall f', useWatch (field_name f') (form s) = afield f' a) ->
  forall f', useWatch (field_name f') (onChange f v (form s)) = afield f' (set_field f v a).
Proof.
  intros Hf f'. rewrite afield_set_field, onChange_setValue. case_decide as Heq.
  - subst. apply useWatch_setValue_eq.
  - rewrite useWatch_setValue_ne; [apply Hf|]. by apply field_name_ne, not_eq_sym.
Qed.

Lemma pending_lookup_abs {G} (s : St G) a i t :
  apending a = task_abs <$> pending s -> pending s !! i = Some t ->
  apending a !! i = Some (task_abs t).
Proof. intros -> Hi. by rewrite list_lookup_fmap, Hi. Qed.

Section Refinement.
Context {G : Type} `{MathRandomOk G}.

Lemma onClickRandomGradient_frame (s : St G) :
  form (onClickRandomGradient s) = form s /\ pending (onClickRandomGradient s) = pending s.
Proof. unfold onClickRandomGradient. by destruct (random_gradient (rng s)). Qed.

Lemma settle_refines (s : St G) a i t d' :
  R s a -> pending s !! i = Some t ->
  forall st', R (mkSt (form s) st' (image s) (rng s) (delete i (pending s)))
                (mkAState (a_title a) (a_subtitle a) (a_category a) d' (delete i (apending a)))
    <-> st' = paint_opt d'.
Proof.
  intros (Hf & Hs & Hp) Hi st'. unfold R. simpl. rewrite Hp, list_fmap_delete.
  split; [by intros (_ & ? & _) | intros ->; split; [|done]]. intros []; apply Hf.
Qed.
End Refinement.

(** ** Theorems *)

Section RefinementTheorems.
Context {G : Type} `{MathRandomOk G}.


(** The simulation diagram of one step. *)
Lemma step_sim (s s' : St G) a e c :
  R s a -> step s e = Some (c, s') -> exists a', (a' = a \/ AStep a a') /\ R s' a'.
Proof.
  intros HR Hstep. pose proof HR as (Hf & Hs & Hp).
  destruct e as [f v| | | | |[b|]| |i o|i o]; simpl in Hstep; simplify_eq.
  - exists (set_field f v a). split; [right; constructor|].
    split; [by apply R_fields_onChange|]. by destruct f.
  - destruct (onClickRandomGradient_style s) as (ang & c1 & c2 & Hok & Hst).
    destruct (onClickRandomGradient_frame s) as [Hfo Hpe].
    exists (activate (Gradient ang c1 c2) a). split; [right; by constructor|].
    split; [intros f; rewrite Hfo; destruct f; apply Hf|]. by rewrite Hpe.
  - destruct (onClickRandomColor_pending s) as [Hpe Hfo].
    exists (activate (SolidColor (fst (randomColor (rng s)))) a).
    split; [right; constructor; apply randomColor_hex|].
    split; [intros f; rewrite Hfo; destruct f; apply Hf|].
    split; [apply onClickRandomColor_style|]. by rewrite Hpe.
  - exists (with_apending (apending a ++ [AFetch]) a). split; [right; constructor|].
    split; [intros []; apply Hf|]. split; [done|]. simpl. by rewrite Hp, fmap_app.
  - by exists a; split; [left|].
  - exists (with_apending (apending a ++ [ADecode (readAsDataURL b)]) a).
    split; [right; constructor|].
    split; [intros []; apply Hf|]. split; [done|]. simpl. by rewrite Hp, fmap_app.
  - by exists a; split; [left|].
  - by exists a; split; [left|].
  - destruct (pending s !! i) as [[|b]|] eqn:Hi; [|done..].
    pose proof (pending_lookup_abs s a i _ Hp Hi) as Ha. destruct o; simplify_eq.
    + exists (activate (RemoteImage url) (with_apending (delete i (apending a)) a)).
      split; [right; by constructor|]. by apply (settle_refines s a i FetchTask).
    + exists (with_apending (delete i (apending a)) a).
      split; [right; by constructor|]. by apply (settle_refines s a i FetchTask).
  - destruct (pending s !! i) as [[|b]|] eqn:Hi; [done| |done].
    pose proof (pending_lookup_abs s a i _ Hp Hi) as Ha. destruct o; simplify_eq.
    + exists (activate (UploadedImage (readAsDataURL b)) (with_apending (delete i (apending a)) a)).
      split; [right; by econstructor|].
      unfold onChangeImage_onload, with_pending. simpl.
      apply (settle_refines s a i (ReaderTask b)); [done..|]. done.
    + exists (with_apending (delete i (apending a)) a).
      split; [right; by econstructor|]. by apply (settle_refines s a i (ReaderTask b)).
Qed.

(** Every reachable state is related to a reachable abstract state. *)
Lemma reachable_sim (g0 : G) (s : St G) :
  reachable g0 s -> exists a, AReach a /\ R s a.
Proof.
  induction 1 as [|s e c s' _ (a & Ha & HR) Hstep].
  - exists ainit. split; [constructor|]. split; [by intros []|done].
  - destruct (step_sim s s' a e c HR Hstep) as (a' & [->|Ha'] & HR'); eauto using AReach.
Qed.

(** C19: refinement, one step: every event [Main] handles is matched, from a
    related abstract state, by one step of the spec's machine or by none
    (clicks that open the picker or hit the refresh button, a file input
    without a file), and the states after are related again: the same field
    values, the style painting the active descriptor, the same work in
    flight. *)
Theorem step_refines (s s' : St G) a e c :
  R s a -> step s e = Some (c, s') -> exists a', (a' = a \/ AStep a a') /\ R s' a'.
Proof. apply step_sim. Qed.

(** C20: refinement of every run: each state [Main] reaches from mount, by
    any interleaving of events and completions, is related to a state the
    spec's machine reaches, and the preview shows the spec's rendering of
    it: each field's text or placeholder, and the active descriptor's
    background. *)
Theorem reachable_refines (g0 : G) (s : St G) :
  reachable g0 s ->
  exists a, AReach a /\ R s a /\
    (forall f, view_field f (render (form s) (style s)) = arender_text f a) /\
    view_background (render (form s) (style s)) = arender_background a.
Proof.
  intros Hr. destruct (reachable_sim g0 s Hr) as (a & Ha & HR). exists a. split; [done|]. split; [done|].
  destruct HR as (Hf & Hst & _). split.
  - intros f. rewrite view_field_render, Hf. by destruct f.
  - simpl. rewrite Hst. unfold arender_background. by destruct (active a) as [[]|].
Qed.
End RefinementTheorems.

(** ** Witnesses *)

Local Abbreviation g_demo := (seed_rng (map (fun d => d * 2 ^ 49)%Z [3; 10; 7; 15; 13; 1]%Z)).

Lemma step_refines_witness :
  R (init g_demo) ainit /\
  step (init g_demo) ClickRandomColor = Some (Normal, onClickRandomColor (init g_demo)) /\
  exists a', (a' = ainit \/ AStep ainit a') /\ R (onClickRandomColor (init g_demo)) a'.
Proof.
  assert (HR : R (init g_demo) ainit) by (split; [by intros []|done]).
  split; [done|]. split; [reflexivity|].
  apply (step_refines (init g_demo) _ ainit ClickRandomColor Normal HR). reflexivity.
Defined.

Lemma reachable_refines_witness :
  exists a, AReach a /\ R (onClickRandomColor (init g_demo)) a /\
    (forall f, view_field f (render (form (onClickRandomColor (init g_demo)))
                                    (style (onClickRandomColor (init g_demo)))) = arender_text f a) /\
    view_background (render (form (onClickRandomColor (init g_demo)))
                            (style (onClickRandomColor (init g_demo)))) = arender_background a.
Proof.
  apply (reachable_refines g_demo).
  apply (reach_step _ (init g_demo) ClickRandomColor Normal); [apply reach_init | reflexivity].
Defined.
