(* ===== verification/Display.v ===== *)
(** * Display: the computed background of [#preview] and the color of its texts

    The browser shows [#preview] through the cascade of its class (the
    styled [Preview], lines 190-200, whose last declaration is
    [background: #000000]) and of its inline style, which the handlers write
    ([Style], see [Preview]).  [inline_decls] is the inline style as
    declarations, in the order [CSSStyleDeclaration] keeps them
    ([background] first, then [background-size]), and [preview_computed] the
    cascade of [Styled.computed] for that element.  [shown] is what paints
    the area: the computed [background-image], [background-color],
    [background-size] and [background-repeat].  The texts [Title],
    [Subtitle] and [Category] (lines 208-246) take their [color] from their
    own classes.

    The theorem: in every reachable state the four longhands are a function
    of the spec's active descriptor ([descriptor_shown]), which is the
    spec's invariant that the preview depends only on the fields and the
    descriptor.  The [background] values the handlers write are not
    validated here: the browser drops a declaration whose value it cannot
    parse, and the model keeps every value ([Styled.background_longhands]),
    which is exact for the well-formed values the handlers write. *)

From stdpp Require Import base list gmap strings.
From Stdlib Require Import ZArith.
From S2P Require Import Prelude Random Color Styled Form Preview DataUrl Main Background Spec.

(** The inline style of [#preview] as declarations. *)
Definition inline_decls (st : Style) : list (string * string) :=
  ((match background st with Some v => [("background", v)] | None => [] end) ++
   (match backgroundSize st with Some v => [("background-size", v)] | None => [] end))%list.

Definition preview_computed (st : Style) (p : string) : option string :=
  computed Preview false (inline_decls st) p.

(** The longhands that paint the preview's area. *)
Definition shown (st : Style) : option string * option string * option string * option string :=
  (preview_computed st "background-image", preview_computed st "background-color",
   preview_computed st "background-size", preview_computed st "background-repeat").

(** What the code shows for each active descriptor: the class's black before
    any choice; a color fills the area; a gradient or an image is an image
    layer over a transparent color, at its natural size and repeated, except
    an uploaded image, sized to [cover]. *)
Definition descriptor_shown (d : option Descriptor)
    : option string * option string * option string * option string :=
  match d with
  | None => (Some "none", Some Preview_background, Some "auto", Some "repeat")
  | Some (Gradient a c1 c2) => (Some (gradient_css a c1 c2), Some "transparent", Some "auto", Some "repeat")
  | Some (SolidColor c) => (Some "none", Some c, Some "auto", Some "repeat")
  | Some (RemoteImage u) => (Some (url_css u), Some "transparent", Some "auto", Some "repeat")
  | Some (UploadedImage u) => (Some (url_css u), Some "transparent", Some "cover", Some "repeat")
  end.

(** ** Lemmas *)

(** The class of [Preview] is applied first, then the inline style. *)
Lemma preview_computed_class st p :
  preview_computed st p =
    apply_decls (apply_decls ∅ (default [] (class_decls <$> parse_template (template Preview))))
                (inline_decls st) !! p.
Proof. unfold preview_computed, computed. by rewrite <- apply_decls_app. Qed.

Lemma shown_background v size :
  shown (mkStyle (Some v) (Some size)) =
    (Some (if is_hex_color v then "none" else v), Some (if is_hex_color v then v else "transparent"),
     Some size, Some "repeat").
Proof.
  unfold shown. rewrite !preview_computed_class.
  change (inline_decls _) with [("background", v); ("background-size", size)].
  by destruct (apply_background (apply_decls ∅ (default [] (class_decls <$> parse_template (template Preview))))
                 v size) as (-> & -> & -> & ->).
Qed.

Lemma gradient_css_not_hex a c1 c2 : is_hex_color (gradient_css a c1 c2) = false.
Proof. reflexivity. Qed.

Lemma url_css_not_hex u : is_hex_color (url_css u) = false.
Proof. reflexivity. Qed.

Lemma shown_paint d : descriptor_ok d = true -> shown (paint d) = descriptor_shown (Some d).
Proof.
  destruct d; unfold paint, set_background, set_backgroundSize; cbn [descriptor_ok background];
    intros Hok; rewrite shown_background;
    rewrite ?gradient_css_not_hex, ?url_css_not_hex; [done|by rewrite Hok|done..].
Qed.

(** The spec's machine only activates well-formed descriptors. *)
Lemma AReach_active_ok a d : AReach a -> active a = Some d -> descriptor_ok d = true.
Proof.
  intros Ha. revert d. induction Ha as [|a a' _ IH Hst]; [done|].
  destruct Hst; try destruct f; cbn in *; intros d' Hd; simplify_eq; cbn; eauto.
Qed.

(** ** Theorems *)

Section Theorems.
Context {G : Type} `{MathRandomOk G}.

(** C21: invariant: in every reachable state the computed
    [background-image], [background-color], [background-size] and
    [background-repeat] of [#preview] (its class's [background: #000000]
    under the inline style the handlers write) are a function of the spec's
    active descriptor: black before any choice, the color of a solid color,
    the gradient or the image over a transparent color, with
    [background-size: cover] for an uploaded image only. *)
Theorem reachable_preview_shown (g0 : G) (s : St G) :
  reachable g0 s ->
  exists a, AReach a /\ R s a /\ shown (style s) = descriptor_shown (active a).
Proof.
  intros Hr. destruct (reachable_sim g0 s Hr) as (a & Ha & HR). exists a.
  split_and!; [done..|]. destruct HR as (_ & -> & _).
  destruct (active a) as [d|] eqn:Hd; [|reflexivity].
  apply shown_paint. by apply (AReach_active_ok a).
Qed.

End Theorems.

(** ** Witnesses *)

Lemma reachable_preview_shown_witness :
  exists a, AReach a /\ R (onClickRandomImage (init (seed_rng []))) a /\
    shown (style (onClickRandomImage (init (seed_rng [])))) = descriptor_shown (active a).
Proof.
  apply (reachable_preview_shown (seed_rng [])).
  apply (reach_step _ (init (seed_rng [])) ClickRandomImage Normal); [apply reach_init | reflexivity].
Defined.
